(** * image-map-generator: the visualization request proxy and its client

    A shallow embedding of the three [POST /api/generate] handlers of the
    repository (the echo server [simple-server.js], the validating
    single-provider server, and the multi-provider [server.js]) and of the
    [generateImage] action of the [MapboxAIGenerator] page, with the
    properties the specification states about them.  The remaining
    endpoints of the servers ([/test-gemini], [/api/generate-dalle],
    [/api/generate-sd]) and the camera and download buttons of the page
    follow, with properties of their own.

    A request body is a parsed JSON value.  What the JavaScript host
    supplies (the clock, [Math.random], the digits of a number, the number
    a string denotes, the answer of the Gemini SDK) is collected in the
    record [Host] and passed to every handler. *)

From Stdlib Require Import ZArith NArith String Ascii List Bool Lia.
From Stdlib Require Import Floats DecimalString.
Import ListNotations.

Set Warnings "-inexact-float,-register-all".

Local Open Scope string_scope.

(** ** JavaScript values *)

Module Js.

(** A value as [JSON.parse] builds it, plus [undefined].  A string is the
    sequence of its code units (the texts the handlers write themselves
    are given in their UTF-8 bytes); an object lists its own properties in
    enumeration order, each key once. *)
Inductive Value : Type :=
| Undefined
| Null
| Bool (b : bool)
| Num (x : float)
| Str (s : string)
| Arr (elems : list Value)
| Obj (props : list (string * Value)).

(** The error objects the handlers can catch.  [status] and [errorDetails]
    are the extra fields of the SDK's fetch error.  [errorDetails] follows
    the SDK's declaration and the BadRequest detail of the API: an optional
    array of detail objects, each with an optional array of field
    violations, a violation being a field name and a description. *)
Record Violation : Type := mkViolation {
  field : string;
  description : string
}.

Record Detail : Type := mkDetail {
  fieldViolations : option (list Violation);
  others : list (string * Value)
}.

Record Error : Type := mkError {
  message : string;
  stack : string;
  status : Value;
  errorDetails : option (list Detail)
}.

(** What the host supplies. *)
Record Engine : Type := mkEngine {
  (** Number::toString of a finite number above zero *)
  Number_digits : float -> string;
  (** StringToNumber *)
  StringToNumber : string -> float;
  (** the [stack] property of a new error, from its name and message *)
  Error_stack : string -> string -> string
}.

Definition lookup (key : string) (props : list (string * Value)) : Value :=
  match find (fun p => String.eqb (fst p) key) props with
  | Some p => snd p
  | None => Undefined
  end.

Definition has_own (key : string) (props : list (string * Value)) : bool :=
  existsb (fun p => String.eqb (fst p) key) props.

(** [s.length] as a natural number. *)
Fixpoint strlen (s : string) : N :=
  match s with
  | EmptyString => 0
  | String _ rest => N.succ (strlen rest)
  end.

Definition count {A : Type} (l : list A) : N := N.of_nat (List.length l).

Definition Number_of_N (n : N) : float :=
  PrimFloat.of_uint63 (Uint63.of_Z (Z.of_N n)).

(** ToBoolean *)
Definition truthy (v : Value) : bool :=
  match v with
  | Undefined | Null => false
  | Bool b => b
  | Num x => negb (PrimFloat.is_zero x || PrimFloat.is_nan x)
  | Str s => negb (String.eqb s EmptyString)
  | Arr _ | Obj _ => true
  end.

(** [typeof v === 'undefined'] and [typeof v === 'number'] *)
Definition is_undefined (v : Value) : bool :=
  match v with Undefined => true | _ => false end.

Definition is_number (v : Value) : bool :=
  match v with Num _ => true | _ => false end.

Definition is_nullish (v : Value) : bool :=
  match v with Undefined | Null => true | _ => false end.

(** *** Control: a statement runs to its end, responds early, or throws *)

Record Response : Type := mkResponse {
  code : nat;
  json : Value
}.

Inductive Run (A : Type) : Type :=
| Next (a : A)
| Respond (r : Response)
| Throw (e : Error).

Arguments Next {A} a.
Arguments Respond {A} r.
Arguments Throw {A} e.

Definition bind {A B : Type} (c : Run A) (k : A -> Run B) : Run B :=
  match c with
  | Next a => k a
  | Respond r => Respond r
  | Throw e => Throw e
  end.

Definition map_run {A B : Type} (f : A -> B) (c : Run A) : Run B :=
  bind c (fun a => Next (f a)).

(** A run that sends no response of its own *)
Definition quiet {A : Type} (c : Run A) : Prop :=
  forall r, c <> Respond r.

End Js.

Import Js.

Declare Scope run_scope.
Delimit Scope run_scope with run.
Notation "x <- c ;; k" := (bind c (fun x => k))
  (at level 61, c at next level, right associativity) : run_scope.
Notation "c ;;; k" := (bind c (fun _ => k))
  (at level 61, right associativity) : run_scope.
Local Open Scope run_scope.

(** [v[key]] on a value that is neither [undefined] nor [null], for the
    keys the handlers read ([imageData], [pitch], [bearing], [zoom],
    [location], [lat], [lng], [length]): an own property of an object, the
    length of a string or an array, [undefined] otherwise. *)
Definition prop (v : Value) (key : string) : Value :=
  match v with
  | Obj props => lookup key props
  | Str s => if String.eqb key "length" then Num (Number_of_N (strlen s)) else Undefined
  | Arr l => if String.eqb key "length" then Num (Number_of_N (count l)) else Undefined
  | _ => Undefined
  end.

Section Conversions.

Variable E : Engine.

(** [new Error(msg)], and the TypeError the engine throws *)
Definition new_Error (msg : string) : Error :=
  mkError msg (Error_stack E "Error" msg) Undefined None.

Definition TypeError (msg : string) : Error :=
  mkError msg (Error_stack E "TypeError" msg) Undefined None.

(** [v[key]]: a TypeError on [undefined] and [null] *)
Definition Get (v : Value) (key : string) : Run Value :=
  match v with
  | Undefined =>
      Throw (TypeError ("Cannot read properties of undefined (reading '" ++ key ++ "')"))
  | Null =>
      Throw (TypeError ("Cannot read properties of null (reading '" ++ key ++ "')"))
  | _ => Next (prop v key)
  end.

(** Number::toString *)
Definition Number_toString (x : float) : string :=
  if PrimFloat.is_nan x then "NaN"
  else if PrimFloat.is_zero x then "0"
  else if PrimFloat.is_infinity x then
    (if PrimFloat.get_sign x then "-Infinity" else "Infinity")
  else if PrimFloat.get_sign x then "-" ++ Number_digits E (PrimFloat.abs x)
  else Number_digits E x.

Definition join_with (sep : string) (parts : list string) : string :=
  String.concat sep parts.

(** ToString, as a template literal applies it.  An array is joined with
    commas, [null] and [undefined] elements giving the empty string.  An
    object has no callable [toString] of its own (JSON holds no function):
    an own [toString] hides the inherited one and the conversion throws,
    otherwise the inherited one answers. *)
Fixpoint ToString (v : Value) : Run string :=
  match v with
  | Undefined => Next "undefined"
  | Null => Next "null"
  | Bool true => Next "true"
  | Bool false => Next "false"
  | Num x => Next (Number_toString x)
  | Str s => Next s
  | Arr l =>
      map_run (join_with ",")
        ((fix elements (l : list Value) : Run (list string) :=
            match l with
            | [] => Next []
            | v :: rest =>
                s <- (if is_nullish v then Next EmptyString else ToString v) ;;
                ss <- elements rest ;;
                Next (s :: ss)
            end) l)
  | Obj props =>
      if has_own "toString" props
      then Throw (TypeError "Cannot convert object to primitive value")
      else Next "[object Object]"
  end.

(** ToNumber: an array or an object is first converted as above. *)
Definition ToNumber (v : Value) : Run float :=
  match v with
  | Undefined => Next nan
  | Null => Next 0%float
  | Bool true => Next 1%float
  | Bool false => Next 0%float
  | Num x => Next x
  | Str s => Next (StringToNumber E s)
  | Arr _ | Obj _ => s <- ToString v ;; Next (StringToNumber E s)
  end.

(** [v > k] for a number [k] *)
Definition greater_than (v : Value) (k : float) : Run bool :=
  x <- ToNumber v ;; Next (PrimFloat.ltb k x).

End Conversions.

(** ** Numbers in fixed notation *)

(** The text [x.toFixed(d)] returns, kept as the numeral it spells: [d]
    decimals of a scaled integer, or, for a number that is not finite or
    reaches 1e21, the text of Number::toString. *)
Inductive Numeral : Type :=
| Fixed (negative : bool) (scaled : N)
| Plain (x : float).

Definition zeros (k : nat) : string :=
  String.concat EmptyString (repeat "0" k).

Definition decimal (n : N) : string :=
  NilZero.string_of_uint (N.to_uint n).

(** The digits of [n], padded to [d + 1] places, a point before the last [d]. *)
Definition fixed_text (d : nat) (n : N) : string :=
  let digits := decimal n in
  let padded := zeros (S d - String.length digits) ++ digits in
  let whole := String.length padded - d in
  match d with
  | O => padded
  | S _ => substring 0 whole padded ++ "." ++ substring whole d padded
  end.

(** The integer nearest to [m * 2^e * 10^d], the larger one on a tie. *)
Definition scale_round (d : nat) (m : positive) (e : Z) : N :=
  let shifted := (Z.pos m * 10 ^ Z.of_nat d)%Z in
  if (0 <=? e)%Z then Z.to_N (shifted * 2 ^ e)
  else Z.to_N ((2 * shifted + 2 ^ (- e)) / 2 ^ (1 - e)).

(** Number.prototype.toFixed *)
Definition toFixed (d : nat) (x : float) : Numeral :=
  match Prim2SF x with
  | S754_finite negative m e =>
      if PrimFloat.leb 1e21 (PrimFloat.abs x) then Plain x
      else Fixed negative (scale_round d m e)
  | S754_zero _ => Fixed false 0
  | S754_infinity _ | S754_nan => Plain x
  end.

(** [len * 0.75 / (1024 * 1024)] to two decimals, for the length of a string
    or an array.  Such a length is a whole number below 2^32 (V8 stops a
    string near 2^30), so the product and the quotient are exact in
    binary64 and the hundredths are those of [3 * len / 2^22], rounded
    half up. *)
Definition hundredths_of_MB (len : N) : N :=
  (150 * len + 1048576) / 2097152.

(** [numeral > 15], the numeral read back as a number.  Two decimals spell
    a multiple of 0.01, whose nearest binary64 exceeds 15 exactly when the
    multiple does; the text of Number::toString reads back as [x]. *)
Definition exceeds_15 (q : Numeral) : bool :=
  match q with
  | Fixed negative n => negb negative && (1500 <? n)%N
  | Plain x => PrimFloat.ltb 15 x
  end.

Section Text.

Variable E : Engine.

Definition Numeral_text (d : nat) (q : Numeral) : string :=
  match q with
  | Fixed negative n => (if negative then "-" else EmptyString) ++ fixed_text d n
  | Plain x => Number_toString E x
  end.

(** [v.toFixed(d)] on a request value: only a number has the method *)
Definition call_toFixed (name : string) (v : Value) (d : nat) : Run string :=
  match v with
  | Num x => Next (Numeral_text d (toFixed d x))
  | Undefined =>
      Throw (TypeError E "Cannot read properties of undefined (reading 'toFixed')")
  | Null =>
      Throw (TypeError E "Cannot read properties of null (reading 'toFixed')")
  | _ => Throw (TypeError E (name ++ ".toFixed is not a function"))
  end.

(** [const sizeInBytes = imageData.length * 0.75;]
    [const sizeInMB = (sizeInBytes / (1024 * 1024)).toFixed(2);] *)
Definition sizeInMB (imageData : Value) : Run Numeral :=
  match imageData with
  | Str s => Next (Fixed false (hundredths_of_MB (strlen s)))
  | Arr l => Next (Fixed false (hundredths_of_MB (count l)))
  | _ =>
      len <- Get E imageData "length" ;;
      x <- ToNumber E len ;;
      let sizeInBytes := (x * 0.75)%float in
      Next (toFixed 2 (sizeInBytes / (1024 * 1024))%float)
  end.

(** The interpolations of a template literal, left to right *)
Fixpoint interpolate (vs : list Value) : Run (list string) :=
  match vs with
  | [] => Next []
  | v :: rest => s <- ToString E v ;; ss <- interpolate rest ;; Next (s :: ss)
  end.

(** [const { imageData, pitch, bearing, zoom, location } = req.body;] *)
Definition destructure (body : Value) (key : string) : Run Value :=
  match body with
  | Undefined =>
      Throw (TypeError E ("Cannot destructure property '" ++ key
                          ++ "' of 'req.body' as it is undefined."))
  | Null =>
      Throw (TypeError E ("Cannot destructure property '" ++ key
                          ++ "' of 'req.body' as it is null."))
  | _ => Get E body key
  end.

End Text.

(** [Object.keys] of a parsed body *)
Definition Object_keys (v : Value) : list Value :=
  match v with
  | Obj props => map (fun p => Str (fst p)) props
  | Arr l => map (fun i => Str (decimal (N.of_nat i))) (seq 0 (List.length l))
  | Str s => map (fun i => Str (decimal (N.of_nat i))) (seq 0 (String.length s))
  | _ => []
  end.

(** ** The host of a request *)

(** The argument of [getGenerativeModel] and the parts of one
    [generateContent] call. *)
Record ModelParams : Type := mkModelParams {
  model : string;
  generationConfig : list (string * Value)
}.

Inductive Part : Type :=
| TextPart (text : string)
| InlineData (data : Value) (mimeType : string).

(** How the one call to the backend ends: [generateContent] rejects; it
    resolves without a result, or with a result that has no [response]; the
    response is there and [response.text()] throws; or the text comes back. *)
Inductive Reply : Type :=
| Rejected (e : Error)
| Missing (has_result : bool)
| Blocked (e : Error)
| Answered (text : string).

(** [Math.floor(Math.random() * descriptions.length)] over five templates *)
Inductive Pick : Type := Pick0 | Pick1 | Pick2 | Pick3 | Pick4.

Record Host : Type := mkHost {
  engine : Engine;
  (** [new Date().toISOString()] when the response is built *)
  toISOString : string;
  (** [new Date().getHours()] *)
  getHours : N;
  random_pick : Pick;
  generateContent : ModelParams -> list Part -> Reply
}.

Definition data_url (payload : string) : string :=
  "data:image/png;base64," ++ payload.

Definition status_json (c : nat) (fields : list (string * Value)) : Response :=
  mkResponse c (Obj fields).

(** [error.message || fallback] *)
Definition message_or (e : Error) (fallback : string) : string :=
  if String.eqb (message e) EmptyString then fallback else message e.

Definition finish (caught : Error -> Response) (c : Run Response) : Response :=
  match c with
  | Next r => r
  | Respond r => r
  | Throw e => caught e
  end.

(** ** The echo server (simple-server.js) *)

Module Echo.

Section Handler.

Variable H : Host.
Local Abbreviation E := (engine H).

Definition note : string :=
  "

⚠️ Note: This is the original map image. To get AI-generated 3D visualization, you need to configure Gemini API or use another AI service.".

(** The request as the handler holds it once validation has passed and the
    size has been computed. *)
Record Checked : Type := mkChecked {
  imageData : Value;
  pitch : Value;
  bearing : Value;
  zoom : Value;
  location : Value;
  size : Numeral
}.

(** [console.log('  - imageData:', imageData ? `${imageData.length} chars` : ...)] *)
Definition logged (imageData : Value) : Run (list string) :=
  if truthy imageData
  then len <- Get E imageData "length" ;; interpolate E [len]
  else Next [].

Definition check (body : Value) : Run Checked :=
  imageData <- destructure E body "imageData" ;;
  pitch <- destructure E body "pitch" ;;
  bearing <- destructure E body "bearing" ;;
  zoom <- destructure E body "zoom" ;;
  location <- destructure E body "location" ;;
  logged imageData ;;;
  (* Validation *)
  (if negb (truthy imageData)
   then Respond (status_json 400
          [("error", Str "No image data provided");
           ("received", Arr (Object_keys body))])
   else Next tt) ;;;
  invalid <- (if negb (truthy location) then Next true
              else lat <- Get E location "lat" ;;
                   if is_undefined lat then Next true
                   else lng <- Get E location "lng" ;; Next (is_undefined lng)) ;;
  (if invalid : bool
   then Respond (status_json 400
          [("error", Str "Invalid location data");
           ("received", location)])
   else Next tt) ;;;
  lat <- Get E location "lat" ;;
  lng <- Get E location "lng" ;;
  interpolate E [lat; lng] ;;;
  interpolate E [pitch; bearing; zoom] ;;;
  (* Calculate image size *)
  size <- sizeInMB E imageData ;;
  Next (mkChecked imageData pitch bearing zoom location size).

(** [const descriptions = [ ... ]] *)
Definition descriptions (r : Checked) : Run (list string) :=
  lat <- Get E (location r) "lat" ;;
  latText <- call_toFixed E "location.lat" lat 4 ;;
  lng <- Get E (location r) "lng" ;;
  lngText <- call_toFixed E "location.lng" lng 4 ;;
  high <- greater_than E (pitch r) 60 ;;
  bearingText <- ToString E (bearing r) ;;
  zoomText <- ToString E (zoom r) ;;
  pitchText <- ToString E (pitch r) ;;
  Next
    ["Captured stunning aerial view of urban landscape at " ++ latText
       ++ "°N, " ++ lngText ++ "°E";
     "Beautiful " ++ (if high : bool then "bird's eye" else "street-level")
       ++ " perspective of the cityscape";
     "Map view rendered with " ++ bearingText
       ++ "° rotation, showing intricate urban details";
     "High-definition capture at zoom level " ++ zoomText
       ++ ", revealing architectural patterns";
     "Photographic simulation of urban environment with " ++ pitchText
       ++ "° pitch angle"].

(** [descriptions[i]], then [+ '...'], which spells a missing element
    [undefined] *)
Definition element (l : list string) (i : Pick) : string :=
  nth (match i with
       | Pick0 => 0 | Pick1 => 1 | Pick2 => 2 | Pick3 => 3 | Pick4 => 4
       end) l "undefined".

(** [const response = { success: true, ... }], with the text of the image
    and the description picked *)
Definition sent (r : Checked) (image randomDescription : string) : Response :=
  status_json 200
    [("success", Bool true);
     ("image", Str (data_url image));
     ("description", Str (randomDescription ++ note));
     ("metadata", Obj
        [("location", location r);
         ("camera", Obj [("pitch", pitch r); ("bearing", bearing r); ("zoom", zoom r)]);
         ("imageSize", Str (Numeral_text E 2 (size r) ++ " MB"));
         ("timestamp", Str (toISOString H));
         ("note", Str "No AI processing - original map returned")])].

Definition respond (r : Checked) : Run Response :=
  all <- descriptions r ;;
  let randomDescription := element all (random_pick H) in
  image <- ToString E (imageData r) ;;
  Next (sent r image randomDescription).

Definition caught (e : Error) : Response :=
  status_json 500
    [("error", Str (message_or e "Failed to process request"));
     ("details", Str (stack e));
     ("timestamp", Str (toISOString H))].

Definition handler (body : Value) : Response :=
  finish caught (r <- check body ;; respond r).

End Handler.

End Echo.

(** ** Template literals *)

Inductive Piece : Type :=
| Lit (text : string)
| Sub (expression : Run string).

(** The pieces of a template literal, evaluated left to right *)
Fixpoint template (pieces : list Piece) : Run string :=
  match pieces with
  | [] => Next EmptyString
  | Lit text :: rest => tail <- template rest ;; Next (text ++ tail)
  | Sub expression :: rest =>
      s <- expression ;; tail <- template rest ;; Next (s ++ tail)
  end.

(** The error object as [res.json] receives it *)
Definition Violation_value (v : Violation) : Value :=
  Obj [("field", Str (field v)); ("description", Str (description v))].

Definition Detail_value (d : Detail) : Value :=
  Obj (others d ++
       match fieldViolations d with
       | Some vs => [("fieldViolations", Arr (map Violation_value vs))]
       | None => []
       end).

Definition errorDetails_value (e : Error) : Value :=
  match errorDetails e with
  | Some ds => Arr (map Detail_value ds)
  | None => Undefined
  end.

(** ** The single-provider server (the second file of test-server.js) *)

Module Single.

Section Handler.

Variable H : Host.
Local Abbreviation E := (engine H).

(** The request once validated and sized, with the prompt built for it. *)
Record Prepared : Type := mkPrepared {
  imageData : Value;
  pitch : Value;
  bearing : Value;
  zoom : Value;
  location : Value;
  size : Numeral;
  prompt : string
}.

Definition prompt_for (lat lng pitch bearing zoom : Value) : Run string :=
  template
    [Lit "Transform this Mapbox map view into a PHOTOREALISTIC 3D architectural visualization.

SCENE CONTEXT:
- GPS: ";
     Sub (ToString E lat);
     Lit ", ";
     Sub (ToString E lng);
     Lit "
- Camera: Pitch ";
     Sub (ToString E pitch);
     Lit "°, Bearing ";
     Sub (ToString E bearing);
     Lit "°, Zoom ";
     Sub (ToString E zoom);
     Lit "

REQUIREMENTS:
🏢 ARCHITECTURE:
- Detailed modern buildings with realistic materials (glass, concrete, steel)
- Windows, balconies, rooftop details
- Proper building heights and proportions
- Natural lighting with accurate shadows

🛣️ INFRASTRUCTURE:
- Asphalt roads with lane markings
- Sidewalks, crosswalks
- Street lights, traffic signs
- Proper road layout matching the map

🚗 URBAN LIFE:
- Cars, motorcycles on roads
- Pedestrians on sidewalks
- Parking areas with vehicles
- Active street life

🌳 VEGETATION:
- Street trees with detailed foliage
- Parks and green spaces
- Urban landscaping

💡 LIGHTING & ATMOSPHERE:
- Natural daylight
- Soft shadows
- Reflections on glass
- Atmospheric haze

TECHNICAL:
- Maintain exact camera angle (pitch ";
     Sub (ToString E pitch);
     Lit "°, bearing ";
     Sub (ToString E bearing);
     Lit "°)
- Preserve geographical layout
- 4K quality, photorealistic rendering
- Professional architectural visualization standard

OUTPUT: Single photorealistic image that looks like a real photograph."].

(** [res.status(400).json({ error: 'Image too large. ...', size, limit })] *)
Definition too_large (size : Numeral) : Response :=
  status_json 400
    [("error", Str "Image too large. Please zoom out or reduce resolution.");
     ("size", Str (Numeral_text E 2 size ++ " MB"));
     ("limit", Str "15 MB")].

Definition prepare (body : Value) : Run Prepared :=
  (* console.log('Request body keys:', Object.keys(req.body)) *)
  (if is_nullish body
   then Throw (TypeError E "Cannot convert undefined or null to object")
   else Next tt) ;;;
  imageData <- destructure E body "imageData" ;;
  pitch <- destructure E body "pitch" ;;
  bearing <- destructure E body "bearing" ;;
  zoom <- destructure E body "zoom" ;;
  location <- destructure E body "location" ;;
  (* Validation *)
  (if negb (truthy imageData)
   then Respond (status_json 400 [("error", Str "No image data provided")])
   else Next tt) ;;;
  invalid <- (if negb (truthy location) then Next true
              else lat <- Get E location "lat" ;;
                   if negb (truthy lat) then Next true
                   else lng <- Get E location "lng" ;; Next (negb (truthy lng))) ;;
  (if invalid : bool
   then Respond (status_json 400 [("error", Str "Invalid location data")])
   else Next tt) ;;;
  (* Check image size *)
  size <- sizeInMB E imageData ;;
  (if exceeds_15 size then Respond (too_large size) else Next tt) ;;;
  lat <- Get E location "lat" ;;
  lng <- Get E location "lng" ;;
  interpolate E [lat; lng] ;;;
  interpolate E [pitch; bearing; zoom] ;;;
  prompt <- prompt_for lat lng pitch bearing zoom ;;
  Next (mkPrepared imageData pitch bearing zoom location size prompt).

Definition modelParams : ModelParams :=
  mkModelParams "gemini-1.5-flash" [].

Definition metadata (r : Prepared) (more : list (string * Value)) : Value :=
  Obj ([("location", location r);
        ("camera", Obj [("pitch", pitch r); ("bearing", bearing r); ("zoom", zoom r)])]
       ++ more).

(** The answer with the description of the backend *)
Definition success (r : Prepared) (image description : string) : Response :=
  status_json 200
    [("success", Bool true);
     ("image", Str (data_url image));
     ("description", Str description);
     ("metadata", metadata r
        [("imageSize", Str (Numeral_text E 2 (size r) ++ " MB"));
         ("model", Str "gemini-1.5-flash");
         ("timestamp", Str (toISOString H))])].

(** The answer that carries the failure of the backend *)
Definition degraded (r : Prepared) (image : string) (geminiError : Error) : Response :=
  status_json 200
    [("success", Bool false);
     ("image", Str (data_url image));
     ("description", Str ("⚠️ AI generation failed: " ++ message geminiError
                          ++ "

Returning original map image."));
     ("error", Obj
        [("message", Str (message geminiError));
         ("status", status geminiError);
         ("details", errorDetails_value geminiError)]);
     ("metadata", metadata r [("timestamp", Str (toISOString H))])].

(** [res.json({ success: true, ... })], inside the inner [try] *)
Definition succeed (r : Prepared) (description : string) : Run Response :=
  image <- ToString E (imageData r) ;;
  Next (success r image description).

(** [catch (geminiError)]: the logging writes no part of the response *)
Definition degrade (r : Prepared) (geminiError : Error) : Run Response :=
  image <- ToString E (imageData r) ;;
  Next (degraded r image geminiError).

(** [await model.generateContent([imagePart, textPart])] *)
Definition call (r : Prepared) : Reply :=
  let imagePart := InlineData (imageData r) "image/png" in
  let textPart := TextPart (prompt r) in
  generateContent H modelParams [imagePart; textPart].

Definition delegate (r : Prepared) : Run Response :=
  match call r with
  | Rejected e => degrade r e
  | Missing _ => degrade r (new_Error E "No response from Gemini API")
  | Blocked e => degrade r e
  | Answered description =>
      match succeed r description with
      | Throw e => degrade r e
      | sent => sent
      end
  end.

Definition caught (e : Error) : Response :=
  status_json 500
    [("error", Str (message_or e "Failed to generate image"));
     ("stack", Str (stack e))].

Definition handler (body : Value) : Response :=
  finish caught (r <- prepare body ;; delegate r).

End Handler.

End Single.

(** ** The multi-provider server (server.js), its Gemini endpoint *)

Module Multi.

Definition getTimeOfDay (H : Host) : string :=
  let hour := getHours H in
  if (hour <? 12)%N then "morning"
  else if (hour <? 17)%N then "afternoon"
  else if (hour <? 20)%N then "evening"
  else "night".

Section Handler.

Variable H : Host.
Local Abbreviation E := (engine H).

Record Prepared : Type := mkPrepared {
  imageData : Value;
  pitch : Value;
  bearing : Value;
  zoom : Value;
  location : Value;
  prompt : string
}.

Definition prompt_for (lat lng pitch bearing zoom : Value) : Run string :=
  template
    [Lit "You are an expert architectural visualization AI. Transform this Mapbox satellite/map view into a PHOTOREALISTIC 3D architectural rendering.

SCENE CONTEXT:
- GPS Coordinates: ";
     Sub (ToString E lat);
     Lit ", ";
     Sub (ToString E lng);
     Lit "
- Camera Parameters: Pitch ";
     Sub (ToString E pitch);
     Lit "°, Bearing ";
     Sub (ToString E bearing);
     Lit "°, Zoom Level ";
     Sub (ToString E zoom);
     Lit "
- Perspective: ";
     Sub (high <- greater_than E pitch 45 ;;
          Next (if high : bool then "Aerial/Bird's eye view" else "Street-level view"));
     Lit "

CRITICAL REQUIREMENTS:

🏢 ARCHITECTURE & BUILDINGS:
- Generate highly detailed, modern buildings with realistic proportions
- Materials: Glass curtain walls, concrete facades, steel structures, brick textures
- Details: Windows with reflections, balconies, rooftop equipment (HVAC, antennas)
- Building heights: Match typical urban density (mix of low-rise and high-rise)
- Architectural styles: Contemporary mixed-use buildings appropriate for urban area
- Lighting: Natural daylight with accurate shadow casting

🛣️ ROADS & INFRASTRUCTURE:
- Asphalt roads with realistic texture and wear patterns
- Clear lane markings (white/yellow lines)
- Road furniture: Traffic lights, street signs, lamp posts
- Crosswalks with zebra patterns
- Manholes and utility covers
- Proper road width and layout matching the map

🚶 URBAN LIFE & VEHICLES:
- Cars, buses, motorcycles realistically placed on roads (not floating)
- Vehicles appropriate for ";
     Sub (north <- greater_than E lat 0 ;;
          Next (if north : bool then "Northern" else "Southern"));
     Lit " hemisphere
- Pedestrians walking on sidewalks (small, realistic scale)
- Parking areas with parked vehicles
- Active street life appropriate for ";
     Sub (Next (getTimeOfDay H));
     Lit " time

🌳 VEGETATION & LANDSCAPING:
- Street trees with detailed foliage (species appropriate for climate)
- Parks with grass, pathways, benches
- Potted plants and urban greenery
- Seasonal vegetation (assume current season)
- Tree shadows on ground

💡 LIGHTING & ATMOSPHERE:
- Natural sunlight from realistic sun position
- Soft shadows with proper occlusion
- Atmospheric perspective (slight haze in distance)
- Reflections on glass and water surfaces
- Ambient light bounce between surfaces
- Sky with realistic clouds

🎯 TECHNICAL SPECIFICATIONS:
- Maintain EXACT camera angle: Pitch ";
     Sub (ToString E pitch);
     Lit "° and Bearing ";
     Sub (ToString E bearing);
     Lit "°
- Preserve geographical layout and street network
- 4K quality rendering
- Photorealistic materials with proper PBR properties
- Professional architectural visualization standard
- No cartoonish or artistic interpretation - pure photorealism

⚠️ AVOID:
- Floating objects or unrealistic placements
- Oversaturated colors
- Cartoon-like rendering
- Missing shadows
- Incorrect perspective
- Distorted proportions

OUTPUT FORMAT: Generate a single cohesive photorealistic image that looks like it was captured by a high-end drone camera or professional architectural photographer. The result should be indistinguishable from a real photograph."].

Definition prepare (body : Value) : Run Prepared :=
  imageData <- destructure E body "imageData" ;;
  pitch <- destructure E body "pitch" ;;
  bearing <- destructure E body "bearing" ;;
  zoom <- destructure E body "zoom" ;;
  location <- destructure E body "location" ;;
  (if negb (truthy imageData)
   then Respond (status_json 400 [("error", Str "No image data provided")])
   else Next tt) ;;;
  lat <- Get E location "lat" ;;
  lng <- Get E location "lng" ;;
  interpolate E [lat; lng] ;;;
  interpolate E [pitch; bearing; zoom] ;;;
  prompt <- prompt_for lat lng pitch bearing zoom ;;
  Next (mkPrepared imageData pitch bearing zoom location prompt).

Definition modelParams : ModelParams :=
  mkModelParams "gemini-1.5-pro-latest"
    [("temperature", Num 0.4); ("topK", Num 32); ("topP", Num 1);
     ("maxOutputTokens", Num 4096)].

(** [await model.generateContent([prompt, { inlineData: ... }])] *)
Definition call (r : Prepared) : Reply :=
  generateContent H modelParams
    [TextPart (prompt r); InlineData (imageData r) "image/png"].

(** [const response = await result.response;]
    [const description = response.text();] *)
Definition describe (r : Prepared) : Run string :=
  match call r with
  | Rejected e => Throw e
  | Missing false =>
      Throw (TypeError E "Cannot read properties of undefined (reading 'response')")
  | Missing true =>
      Throw (TypeError E "Cannot read properties of undefined (reading 'text')")
  | Blocked e => Throw e
  | Answered description => Next description
  end.

Definition success (r : Prepared) (image description : string) : Response :=
  status_json 200
    [("success", Bool true);
     ("image", Str (data_url image));
     ("description", Str description);
     ("metadata", Obj
        [("location", location r);
         ("camera", Obj [("pitch", pitch r); ("bearing", bearing r); ("zoom", zoom r)]);
         ("timestamp", Str (toISOString H))])].

Definition delegate (r : Prepared) : Run Response :=
  description <- describe r ;;
  image <- ToString E (imageData r) ;;
  Next (success r image description).

Definition caught (e : Error) : Response :=
  status_json 500
    [("error", Str (message_or e "Failed to generate image"));
     ("details", Str (stack e))].

Definition handler (body : Value) : Response :=
  finish caught (r <- prepare body ;; delegate r).

End Handler.

End Multi.

(** ** The page (MapboxAIGenerator.tsx) *)

Module Client.

(** The canvas of the map.  [canvas.toDataURL('image/png')] is the
    browser's: the PNG file in base64 behind the data-URL prefix, and
    [data:,] for a canvas without pixels. *)
Inductive Canvas : Type :=
| Blank
| Bitmap (png_base64 : string).

Definition toDataURL (canvas : Canvas) : string :=
  match canvas with
  | Blank => "data:,"
  | Bitmap png_base64 => "data:image/png;base64," ++ png_base64
  end.

(** The state of the component: [map.current] and the [useState] cells. *)
Record Page : Type := mkPage {
  map_current : option Canvas;
  lng : Value;
  lat : Value;
  zoom : Value;
  pitch : Value;
  bearing : Value;
  loading : bool;
  generatedImage : option string;
  error : option string
}.

Definition initial : Page :=
  mkPage None (Num 105.8342) (Num 21.0278) (Num 15) (Num 60) (Num 0)
         false None None.

(** [map.current.on('move', ...)]: the cells take the text of [toFixed] *)
Definition moved (E : Engine) (centerLng centerLat mapZoom mapPitch mapBearing : float)
    (p : Page) : Page :=
  mkPage (map_current p)
         (Str (Numeral_text E 4 (toFixed 4 centerLng)))
         (Str (Numeral_text E 4 (toFixed 4 centerLat)))
         (Str (Numeral_text E 2 (toFixed 2 mapZoom)))
         (Str (Numeral_text E 0 (toFixed 0 mapPitch)))
         (Str (Numeral_text E 0 (toFixed 0 mapBearing)))
         (loading p) (generatedImage p) (error p).

Definition captureMapCanvas (p : Page) : option string :=
  match map_current p with
  | None => None
  | Some canvas => Some (toDataURL canvas)
  end.

(** A value after [JSON.stringify] on one side and [JSON.parse] on the
    other: a property holding [undefined] is left out, [undefined] in an
    array and a number that is not finite become [null], minus zero
    becomes zero. *)
Fixpoint wire (v : Value) : Value :=
  match v with
  | Undefined => Undefined
  | Null => Null
  | Bool b => Bool b
  | Num x =>
      if PrimFloat.is_nan x || PrimFloat.is_infinity x then Null
      else if PrimFloat.is_zero x then Num 0
      else Num x
  | Str s => Str s
  | Arr l =>
      Arr ((fix elements (l : list Value) : list Value :=
              match l with
              | [] => []
              | v :: rest =>
                  (if is_undefined v then Null else wire v) :: elements rest
              end) l)
  | Obj props =>
      Obj ((fix properties (props : list (string * Value)) : list (string * Value) :=
              match props with
              | [] => []
              | (key, v) :: rest =>
                  if is_undefined v then properties rest
                  else (key, wire v) :: properties rest
              end) props)
  end.

(** How [fetch] ends: it rejects, or a response arrives with its [ok] flag
    and a body that [response.json()] parses or rejects. *)
Inductive Fetched : Type :=
| Failed (e : Error)
| Replied (ok : bool) (data : Error + Value).

Section Actions.

Variable E : Engine.

(** [fetch('http://localhost:3001/api/generate', ...)], given the body as
    the server parses it *)
Variable fetch : Value -> Fetched.

(** [JSON.stringify({ imageData: mapImage, pitch: Number(pitch), ... })] *)
Definition request (p : Page) (mapImage : string) : Run Value :=
  pitchNumber <- ToNumber E (pitch p) ;;
  bearingNumber <- ToNumber E (bearing p) ;;
  zoomNumber <- ToNumber E (zoom p) ;;
  Next (wire (Obj
    [("imageData", Str mapImage);
     ("pitch", Num pitchNumber);
     ("bearing", Num bearingNumber);
     ("zoom", Num zoomNumber);
     ("location", Obj [("lat", lat p); ("lng", lng p)])])).

(** The captured image and the body handed to [fetch] *)
Definition outgoing (p : Page) : Run (string * Value) :=
  mapImage <- match captureMapCanvas p with
              | Some url =>
                  if String.eqb url EmptyString
                  then Throw (new_Error E "Unable to capture the map")
                  else Next url
              | None => Throw (new_Error E "Unable to capture the map")
              end ;;
  body <- request p mapImage ;;
  Next (mapImage, body).

(** The body of the [try] block, up to [setGeneratedImage(mapImage)] *)
Definition attempt (p : Page) : Run string :=
  sending <- outgoing p ;;
  let (mapImage, body) := sending : string * Value in
  match fetch body with
  | Failed e => Throw e
  | Replied false _ => Throw (new_Error E "API call failed")
  | Replied true (inl e) => Throw e
  | Replied true (inr data) => Next mapImage
  end.

Definition generateImage (p : Page) : Page :=
  let started :=
    mkPage (map_current p) (lng p) (lat p) (zoom p) (pitch p) (bearing p)
           true (generatedImage p) None in
  match attempt p with
  | Next mapImage =>
      mkPage (map_current p) (lng p) (lat p) (zoom p) (pitch p) (bearing p)
             false (Some mapImage) None
  | Throw err =>
      mkPage (map_current p) (lng p) (lat p) (zoom p) (pitch p) (bearing p)
             false (generatedImage p) (Some (message err))
  | Respond _ =>
      mkPage (map_current p) (lng p) (lat p) (zoom p) (pitch p) (bearing p)
             false (generatedImage p) None
  end.

End Actions.

(** The result panel: the error text, else the image, else the placeholder *)
Inductive Panel : Type :=
| ShowsError (text : string)
| ShowsImage (src : string)
| Placeholder.

Definition nonempty (o : option string) : option string :=
  match o with
  | Some s => if String.eqb s EmptyString then None else Some s
  | None => None
  end.

Definition panel (p : Page) : Panel :=
  match nonempty (error p) with
  | Some text => ShowsError text
  | None =>
      match nonempty (generatedImage p) with
      | Some src => ShowsImage src
      | None => Placeholder
      end
  end.

(** A handler behind [fetch]: the response is [ok] for a status from 200
    to 299 and carries the JSON text of what [res.json] was given. *)
Definition served (handler : Value -> Response) (body : Value) : Fetched :=
  let r := handler body in
  Replied ((200 <=? code r) && (code r <=? 299))%nat (inr (wire (json r))).

End Client.

(** ** A host and requests for concrete runs *)

Module Large.

(** A payload of 2^25 characters: 24 MB by the estimate of the servers *)
Definition length : N := 33554432.

Definition payload : string := N.iter length (String "A") EmptyString.

End Large.

Module Sample.

(** The whole number a float holds, if it holds one *)
Definition whole (x : float) : option N :=
  match Prim2SF x with
  | S754_zero _ => Some 0%N
  | S754_finite false m e =>
      if (0 <=? e)%Z then Some (Z.to_N (Z.pos m * 2 ^ e))
      else if (Z.pos m mod 2 ^ (- e) =? 0)%Z then Some (Z.to_N (Z.pos m / 2 ^ (- e)))
      else None
  | _ => None
  end.

Fixpoint digits_value (s : string) (acc : N) : option N :=
  match s with
  | EmptyString => Some acc
  | String c rest =>
      let k := N_of_ascii c in
      if ((48 <=? k) && (k <=? 57))%N
      then digits_value rest (10 * acc + (k - 48))
      else None
  end.

(** The engine on the numbers and strings of the runs below: whole numbers
    up to 2^53 are printed and read in plain decimal, the two coordinates of
    the page's initial centre as the page writes them, and a word that
    spells no number reads as NaN.  No other number is printed in these
    runs. *)
Definition engine : Engine :=
  mkEngine
    (fun x =>
       match whole x with
       | Some n => decimal n
       | None =>
           if PrimFloat.eqb x 21.0278 then "21.0278"
           else if PrimFloat.eqb x 105.8342 then "105.8342"
           else EmptyString
       end)
    (fun s =>
       match s with
       | EmptyString => 0%float
       | _ =>
           match digits_value s 0 with
           | Some n => Number_of_N n
           | None =>
               if String.eqb s "21.0278" then 21.0278%float
               else if String.eqb s "105.8342" then 105.8342%float
               else nan
           end
       end)
    (fun name msg => name ++ ": " ++ msg).

(** A backend that describes the image *)
Definition answering (text : string) : Host :=
  mkHost engine "2025-01-01T00:00:00.000Z" 9 Pick0
         (fun _ _ => Answered text).

(** A backend whose call is rejected, as with a quota error *)
Definition quota : Error :=
  mkError "[429 Too Many Requests] Resource has been exhausted"
          "Error: [429 Too Many Requests] Resource has been exhausted"
          (Num 429) None.

Definition failing : Host :=
  mkHost engine "2025-01-01T00:00:00.000Z" 9 Pick0
         (fun _ _ => Rejected quota).

Definition body (imageData : Value) (pitch bearing zoom : Value)
    (location : Value) : Value :=
  Obj [("imageData", imageData); ("pitch", pitch); ("bearing", bearing);
       ("zoom", zoom); ("location", location)].

Definition coordinates (lat lng : Value) : Value :=
  Obj [("lat", lat); ("lng", lng)].

(** The example request of the specification, with a short payload *)
Definition hanoi : Value :=
  body (Str "iVBORw0KGgo=") (Num 60) (Num 0) (Num 15)
       (coordinates (Num 21.0278) (Num 105.8342)).

(** The same request with two words for coordinates *)
Definition words : Value :=
  body (Str "iVBORw0KGgo=") (Num 60) (Num 0) (Num 15)
       (coordinates (Str "north") (Str "east")).


(** A point on the equator, with and without an image *)
Definition equator : Value :=
  body (Str "iVBORw0KGgo=") (Num 60) (Num 0) (Num 15)
       (coordinates (Num 0) (Num 105.8342)).

Definition equator_without_image : Value :=
  Obj [("pitch", Num 60); ("bearing", Num 0); ("zoom", Num 15);
       ("location", coordinates (Num 0) (Num 105.8342))].

(** A request whose location has no latitude *)
Definition no_latitude : Value :=
  body (Str "iVBORw0KGgo=") (Num 60) (Num 0) (Num 15)
       (Obj [("lng", Num 105.8342)]).

(** The request of the specification with a payload of [Large.length]
    characters *)
Definition large : Value :=
  body (Str Large.payload) (Num 60) (Num 0) (Num 15)
       (coordinates (Num 21.0278) (Num 105.8342)).

(** The page as it is first shown, the map loaded *)
Definition page : Client.Page :=
  Client.mkPage (Some (Client.Bitmap "iVBORw0KGgo="))
    (Client.lng Client.initial) (Client.lat Client.initial)
    (Client.zoom Client.initial) (Client.pitch Client.initial)
    (Client.bearing Client.initial) false None None.

End Sample.

(** ** What the caller observes *)

(** A field of the JSON body of a response *)
Definition answer (r : Response) (key : string) : Value :=
  prop (json r) key.

Definition camera_of (r : Response) : Value :=
  prop (answer r "metadata") "camera".

Definition timestamp_of (r : Response) : Value :=
  prop (answer r "metadata") "timestamp".

(** The two rejections of the validation step *)
Definition no_image : Response :=
  status_json 400 [("error", Str "No image data provided")].

Definition invalid_location : Response :=
  status_json 400 [("error", Str "Invalid location data")].

(** The reason of a backend call that did not deliver a text, as the inner
    [catch] of the single-provider server receives it *)
Definition failure (E : Engine) (reply : Reply) : option Error :=
  match reply with
  | Rejected e => Some e
  | Missing _ => Some (new_Error E "No response from Gemini API")
  | Blocked e => Some e
  | Answered _ => None
  end.

Definition is_object (v : Value) : bool :=
  match v with Obj _ => true | _ => false end.

(** A string starts with another *)
Definition starts_with (p s : string) : bool := String.prefix p s.


(** ** The other endpoints of the servers *)

Module Probe.

(** [GET /test-gemini] of the single-provider server: one call with a
    fixed question; the text is answered with status 200, anything else
    from the [catch] block with status 500. *)
Definition test_gemini (H : Host) : Response :=
  let E := engine H in
  finish
    (fun error =>
       status_json 500
         [("success", Bool false);
          ("error", Str (message error));
          ("details", errorDetails_value error)])
    (text <- match generateContent H (mkModelParams "gemini-1.5-flash" [])
                     [TextPart "Say hello in one word"] with
             | Rejected e => Throw e
             | Missing false =>
                 Throw (TypeError E "Cannot read properties of undefined (reading 'response')")
             | Missing true =>
                 Throw (TypeError E "Cannot read properties of undefined (reading 'text')")
             | Blocked e => Throw e
             | Answered text => Next text
             end ;;
     Next (status_json 200
       [("success", Bool true);
        ("message", Str "Gemini API is working!");
        ("response", Str text)])).

End Probe.

Module Providers.

(** The two optional providers of server.js.  Each is loaded inside its
    handler ([require], then [new]), which can throw; once loaded, a call
    rejects or resolves with the value of the provider. *)
Record Services : Type := mkServices {
  (** [require('openai')], [new OpenAI(...)], then [openai.images.generate] *)
  openai : Error + (Value -> Error + Value);
  (** [require('replicate')], [new Replicate(...)], then [replicate.run] *)
  replicate : Error + (string -> Value -> Error + Value)
}.

Definition loaded {A : Type} (service : Error + A) : Run A :=
  match service with
  | inl e => Throw e
  | inr a => Next a
  end.

Definition settled (outcome : Error + Value) : Run Value :=
  match outcome with
  | inl e => Throw e
  | inr v => Next v
  end.

Section Handlers.

Variable S : Services.
Variable E : Engine.

(** [v[0]] *)
Definition first (v : Value) : Run Value :=
  match v with
  | Undefined =>
      Throw (TypeError E "Cannot read properties of undefined (reading '0')")
  | Null =>
      Throw (TypeError E "Cannot read properties of null (reading '0')")
  | Arr l => Next (hd Undefined l)
  | Obj props => Next (lookup "0" props)
  | Str (String c _) => Next (Str (String c EmptyString))
  | _ => Next Undefined
  end.

(** [res.status(500).json({ error: error.message })] *)
Definition caught (error : Error) : Response :=
  status_json 500 [("error", Str (message error))].

Definition dalle_prompt (lat lng pitch bearing : Value) : Run string :=
  template
    [Lit "Create a photorealistic 3D architectural visualization of an urban area at coordinates ";
     Sub (ToString E lat);
     Lit ", ";
     Sub (ToString E lng);
     Lit ". 
    Camera angle: ";
     Sub (ToString E pitch);
     Lit "° pitch, ";
     Sub (ToString E bearing);
     Lit "° bearing. 
    Include detailed buildings, roads, vehicles, trees, and urban life. 
    Style: Professional architectural rendering, 4K quality, natural lighting, realistic materials."].

(** [POST /api/generate-dalle] *)
Definition generate_dalle (body : Value) : Response :=
  finish caught
    (imageData <- destructure E body "imageData" ;;
     pitch <- destructure E body "pitch" ;;
     bearing <- destructure E body "bearing" ;;
     zoom <- destructure E body "zoom" ;;
     location <- destructure E body "location" ;;
     generate <- loaded (openai S) ;;
     lat <- Get E location "lat" ;;
     lng <- Get E location "lng" ;;
     prompt <- dalle_prompt lat lng pitch bearing ;;
     response <- settled (generate (Obj
       [("model", Str "dall-e-3");
        ("prompt", Str prompt);
        ("n", Num 1);
        ("size", Str "1792x1024");
        ("quality", Str "hd");
        ("style", Str "natural")])) ;;
     data <- Get E response "data" ;;
     image <- first data ;;
     url <- Get E image "url" ;;
     Next (status_json 200
       [("success", Bool true);
        ("image", url);
        ("description", Str prompt)])).

Definition sd_prompt : string :=
  "Professional architectural visualization, photorealistic 3D render of urban cityscape, 
    detailed modern buildings, realistic materials (glass, concrete, steel), 
    street-level view with cars and pedestrians, natural lighting, shadows, 
    4K quality, architectural photography style, sharp details".

(** [POST /api/generate-sd] *)
Definition generate_sd (body : Value) : Response :=
  finish caught
    (imageData <- destructure E body "imageData" ;;
     pitch <- destructure E body "pitch" ;;
     bearing <- destructure E body "bearing" ;;
     zoom <- destructure E body "zoom" ;;
     location <- destructure E body "location" ;;
     run <- loaded (replicate S) ;;
     output <- settled (run
       "stability-ai/sdxl:39ed52f2a78e934b3ba6e2a89f5b1c712de7dfea535525255b1aa35c5565e08b"
       (Obj [("input", Obj
          [("prompt", Str sd_prompt);
           ("negative_prompt",
            Str "cartoon, anime, drawing, sketch, low quality, blurry, distorted");
           ("width", Num 1024);
           ("height", Num 1024);
           ("num_outputs", Num 1);
           ("guidance_scale", Num 7.5);
           ("num_inference_steps", Num 50)])])) ;;
     image <- first output ;;
     Next (status_json 200
       [("success", Bool true);
        ("image", image);
        ("description", Str sd_prompt)])).

End Handlers.

End Providers.

(** ** The other actions of the page *)

Module Controls.

(** [Math.min] and [Math.max] of two numbers: NaN if either is, and minus
    zero below zero *)
Definition Math_min (a b : float) : float :=
  if PrimFloat.is_nan a || PrimFloat.is_nan b then nan
  else if PrimFloat.ltb a b then a
  else if PrimFloat.ltb b a then b
  else if PrimFloat.get_sign a then a else b.

Definition Math_max (a b : float) : float :=
  if PrimFloat.is_nan a || PrimFloat.is_nan b then nan
  else if PrimFloat.ltb a b then b
  else if PrimFloat.ltb b a then a
  else if PrimFloat.get_sign a then b else a.

(** What [adjustCamera] asks of the map *)
Inductive MapCommand : Type :=
| SetPitch (pitch : float)
| SetBearing (bearing : Value)
| FlyTo (centerLng centerLat : Value) (zoom pitch bearing : float).

(** What [downloadImage] hands to the browser *)
Record Download : Type := mkDownload {
  href : string;
  download : string
}.

Section Actions.

Variable E : Engine.

(** ToPrimitive without a hint: an array or an object gives its text *)
Definition ToPrimitive (v : Value) : Run Value :=
  match v with
  | Arr _ | Obj _ => s <- ToString E v ;; Next (Str s)
  | _ => Next v
  end.

(** [a + b]: texts are joined as soon as one side is a string *)
Definition plus (a b : Value) : Run Value :=
  pa <- ToPrimitive a ;;
  pb <- ToPrimitive b ;;
  match pa, pb with
  | Str _, _ | _, Str _ =>
      sa <- ToString E pa ;; sb <- ToString E pb ;; Next (Str (sa ++ sb))
  | _, _ =>
      x <- ToNumber E pa ;; y <- ToNumber E pb ;; Next (Num (x + y)%float)
  end.

(** [a - b] *)
Definition minus (a b : Value) : Run float :=
  x <- ToNumber E a ;; y <- ToNumber E b ;; Next (x - y)%float.

Definition adjustCamera (p : Client.Page) (type : string) : Run (option MapCommand) :=
  match Client.map_current p with
  | None => Next None
  | Some _ =>
      if String.eqb type "pitch-up" then
        raised <- plus (Client.pitch p) (Num 10) ;;
        x <- ToNumber E raised ;;
        Next (Some (SetPitch (Math_min 85 x)))
      else if String.eqb type "pitch-down" then
        lowered <- minus (Client.pitch p) (Num 10) ;;
        Next (Some (SetPitch (Math_max 0 lowered)))
      else if String.eqb type "rotate-left" then
        turned <- minus (Client.bearing p) (Num 30) ;;
        Next (Some (SetBearing (Num turned)))
      else if String.eqb type "rotate-right" then
        turned <- plus (Client.bearing p) (Num 30) ;;
        Next (Some (SetBearing turned))
      else if String.eqb type "reset" then
        Next (Some (FlyTo (Client.lng p) (Client.lat p) 15 60 0))
      else Next None
  end.

(** [downloadImage], given [Date.now()] *)
Definition downloadImage (now : float) (p : Client.Page) : option Download :=
  match Client.nonempty (Client.generatedImage p) with
  | None => None
  | Some generatedImage =>
      Some (mkDownload generatedImage
              ("map-render-" ++ Number_toString E now ++ ".png"))
  end.

End Actions.

End Controls.

(** ** Providers for concrete runs *)

Module Fixture.

(** Both packages installed and both services answering *)
Definition answering : Providers.Services :=
  Providers.mkServices
    (inr (fun _ =>
            inr (Obj [("created", Num 1735689600);
                      ("data", Arr [Obj [("url", Str "https://images.test/render.png")]])])))
    (inr (fun _ _ => inr (Arr [Str "https://replicate.test/out-0.png"]))).

(** Neither package installed: [require] throws *)
Definition missing : Providers.Services :=
  Providers.mkServices
    (inl (mkError "Cannot find module 'openai'"
                  "Error: Cannot find module 'openai'" Undefined None))
    (inl (mkError "Cannot find module 'replicate'"
                  "Error: Cannot find module 'replicate'" Undefined None)).

End Fixture.


(** * Properties *)

(** ** Steps of a run *)

Ltac run_step :=
  match goal with
  | H : context [bind (Next _) _] |- _ => cbn [bind] in H
  | H : context [bind (Throw _) _] |- _ => cbn [bind] in H
  | H : context [bind (Respond _) _] |- _ => cbn [bind] in H
  | H : context [bind (if ?b then _ else _) _] |- _ => destruct b eqn:?
  | H : context [bind ?c _] |- _ => destruct c eqn:?
  | H : Next _ = Next _ |- _ => injection H as H; try subst
  | H : Respond _ = Respond _ |- _ => injection H as H; try subst
  | H : Throw _ = Throw _ |- _ => injection H as H; try subst
  | H : context [if ?b then _ else _] |- _ => destruct b eqn:?
  end; try discriminate.

(** Conjunctions are split, equivalences are left whole. *)
Ltac conjuncts :=
  repeat match goal with |- _ /\ _ => split end.

Lemma destructure_ok (E : Engine) (body : Value) (key : string) :
  is_nullish body = false -> destructure E body key = Next (prop body key).
Proof. destruct body; simpl; intros; try discriminate; reflexivity. Qed.

Lemma Get_ok (E : Engine) (v : Value) (key : string) :
  is_nullish v = false -> Get E v key = Next (prop v key).
Proof. destruct v; simpl; intros; try discriminate; reflexivity. Qed.

Lemma truthy_not_nullish (v : Value) : truthy v = true -> is_nullish v = false.
Proof. destruct v; simpl; intros; try discriminate; reflexivity. Qed.

Lemma defined_not_nullish (v : Value) (key : string) :
  is_undefined (prop v key) = false -> is_nullish v = false.
Proof. destruct v; simpl; intros; try discriminate; reflexivity. Qed.

Lemma is_undefined_true (v : Value) : is_undefined v = true <-> v = Undefined.
Proof. destruct v; simpl; split; intros; try discriminate; reflexivity. Qed.

Lemma interpolate_Next (E : Engine) (vs : list Value) (ss : list string) :
  interpolate E vs = Next ss -> Forall (fun v => exists s, ToString E v = Next s) vs.
Proof.
  revert ss. induction vs as [|v vs IH]; intros ss Hi; [constructor|].
  simpl in Hi. destruct (ToString E v) eqn:Hv; cbn [bind] in Hi; try discriminate.
  destruct (interpolate E vs) eqn:Hvs; cbn [bind] in Hi; try discriminate.
  constructor; [eauto | eapply IH; reflexivity].
Qed.


(** Conversions and property reads end or throw: only a handler responds. *)
Lemma quiet_bind {A B : Type} (c : Run A) (k : A -> Run B) :
  quiet c -> (forall a, quiet (k a)) -> quiet (bind c k).
Proof.
  intros Hc Hk r. destruct c as [a|r'|e]; cbn [bind].
  - apply Hk.
  - destruct (Hc r'); reflexivity.
  - discriminate.
Qed.

Lemma quiet_Next {A : Type} (a : A) : quiet (Next a).
Proof. intros r; discriminate. Qed.

Lemma quiet_Throw {A : Type} (e : Error) : quiet (@Throw A e).
Proof. intros r; discriminate. Qed.

Lemma quiet_if {A : Type} (b : bool) (c d : Run A) :
  quiet c -> quiet d -> quiet (if b then c else d).
Proof. destruct b; auto. Qed.

Create HintDb quiet.
#[export] Hint Resolve quiet_Next quiet_Throw : quiet.

Lemma ToString_quiet (E : Engine) : forall v, quiet (ToString E v).
Proof.
  fix IH 1. intros [ | | [|] | x | s | l | props]; simpl; auto with quiet.
  - apply quiet_bind; [|intros; apply quiet_Next].
    induction l as [|v l IHl]; [apply quiet_Next|].
    apply quiet_bind.
    + apply quiet_if; [apply quiet_Next | apply IH].
    + intros a. apply quiet_bind; [exact IHl | intros; apply quiet_Next].
  - destruct (has_own "toString" props); auto with quiet.
Qed.

Lemma Get_quiet (E : Engine) (v : Value) (key : string) : quiet (Get E v key).
Proof. destruct v; simpl; auto with quiet. Qed.

Lemma destructure_quiet (E : Engine) (v : Value) (key : string) :
  quiet (destructure E v key).
Proof. destruct v; simpl; auto with quiet. Qed.

Lemma ToNumber_quiet (E : Engine) (v : Value) : quiet (ToNumber E v).
Proof.
  destruct v as [ | | [|] | x | s | l | props]; cbn [ToNumber]; auto with quiet;
    (apply quiet_bind; [apply ToString_quiet | intros; apply quiet_Next]).
Qed.

Lemma greater_than_quiet (E : Engine) (v : Value) (k : float) :
  quiet (greater_than E v k).
Proof.
  unfold greater_than. apply quiet_bind; [apply ToNumber_quiet | intros; apply quiet_Next].
Qed.

Lemma call_toFixed_quiet (E : Engine) (name : string) (v : Value) (d : nat) :
  quiet (call_toFixed E name v d).
Proof. destruct v; simpl; auto with quiet. Qed.

Lemma sizeInMB_quiet (E : Engine) (v : Value) : quiet (sizeInMB E v).
Proof.
  destruct v; cbn [sizeInMB]; auto with quiet;
    (apply quiet_bind; [apply Get_quiet | intros; apply quiet_bind;
       [apply ToNumber_quiet | intros; apply quiet_Next]]).
Qed.

Lemma interpolate_quiet (E : Engine) (vs : list Value) : quiet (interpolate E vs).
Proof.
  induction vs as [|v vs IH]; simpl; [apply quiet_Next|].
  apply quiet_bind; [apply ToString_quiet|].
  intros s. apply quiet_bind; [exact IH | intros; apply quiet_Next].
Qed.

Lemma template_quiet (pieces : list Piece) :
  Forall (fun p => match p with Lit _ => True | Sub c => quiet c end) pieces ->
  quiet (template pieces).
Proof.
  induction 1 as [|p ps Hp _ IH]; simpl; [apply quiet_Next|].
  destruct p as [text|c].
  - apply quiet_bind; [exact IH | intros; apply quiet_Next].
  - apply quiet_bind; [exact Hp|].
    intros s. apply quiet_bind; [exact IH | intros; apply quiet_Next].
Qed.

#[export] Hint Resolve ToString_quiet Get_quiet destructure_quiet ToNumber_quiet
  greater_than_quiet call_toFixed_quiet sizeInMB_quiet interpolate_quiet : quiet.

Lemma Single_prompt_quiet (H : Host) (lat lng pitch bearing zoom : Value) :
  quiet (Single.prompt_for H lat lng pitch bearing zoom).
Proof.
  unfold Single.prompt_for. apply template_quiet.
  repeat constructor; auto with quiet.
Qed.

Lemma Multi_prompt_quiet (H : Host) (lat lng pitch bearing zoom : Value) :
  quiet (Multi.prompt_for H lat lng pitch bearing zoom).
Proof.
  unfold Multi.prompt_for. apply template_quiet.
  repeat constructor; auto with quiet;
    (apply quiet_bind; [auto with quiet | intros; apply quiet_Next]).
Qed.

#[export] Hint Resolve Single_prompt_quiet Multi_prompt_quiet : quiet.

(** A step that cannot respond is dismissed when a run is taken apart. *)
Ltac dismiss :=
  match goal with
  | H : ?c = Respond ?r |- _ =>
      exfalso; revert H; generalize r;
      change (quiet c); solve [auto with quiet]
  end.

Lemma ToNumber_of_ToString (E : Engine) (v : Value) (s : string) :
  ToString E v = Next s -> exists x, ToNumber E v = Next x.
Proof.
  intros Hs. destruct v as [ | | [|] | x | t | l | props]; cbn [ToNumber]; eauto;
    rewrite Hs; cbn [bind]; eauto.
Qed.

Lemma interpolate_three (E : Engine) (a b c : Value) (ss : list string) :
  interpolate E [a; b; c] = Next ss ->
  (exists s, ToString E a = Next s) /\
  (exists s, ToString E b = Next s) /\
  (exists s, ToString E c = Next s).
Proof.
  intros Hi. apply interpolate_Next in Hi.
  inversion Hi as [|? ? Ha Hi']; subst.
  inversion Hi' as [|? ? Hb Hi'']; subst.
  inversion Hi'' as [|? ? Hc _]; subst.
  auto.
Qed.

(** ** The echo server, step by step *)

Section EchoFacts.

Variable H : Host.
Local Abbreviation E := (engine H).

Lemma Echo_logged_plain (imageData : Value) :
  is_object imageData = false -> exists ss, Echo.logged H imageData = Next ss.
Proof.
  unfold Echo.logged. intros Hp.
  destruct imageData as [ | | [|] | x | s | l | props]; simpl in *; eauto; try discriminate.
  - destruct (negb _); simpl; eauto.
  - destruct (negb _); simpl; eauto.
Qed.

Lemma Echo_check_Next (body : Value) (r : Echo.Checked) :
  Echo.check H body = Next r ->
  Echo.imageData r = prop body "imageData" /\
  Echo.pitch r = prop body "pitch" /\
  Echo.bearing r = prop body "bearing" /\
  Echo.zoom r = prop body "zoom" /\
  Echo.location r = prop body "location" /\
  truthy (prop body "imageData") = true /\
  truthy (prop body "location") = true /\
  is_undefined (prop (prop body "location") "lat") = false /\
  is_undefined (prop (prop body "location") "lng") = false /\
  sizeInMB E (prop body "imageData") = Next (Echo.size r) /\
  (exists s, ToString E (prop body "pitch") = Next s) /\
  (exists s, ToString E (prop body "bearing") = Next s) /\
  (exists s, ToString E (prop body "zoom") = Next s).
Proof.
  intros Hc. unfold Echo.check, Echo.logged in Hc.
  destruct (is_nullish body) eqn:Hn.
  { destruct body; discriminate. }
  rewrite !destructure_ok in Hc by assumption. cbn [bind] in Hc.
  destruct (truthy (prop body "imageData")) eqn:Hi.
  2:{ cbn [negb bind] in Hc. discriminate. }
  destruct (truthy (prop body "location")) eqn:Hl.
  2:{ repeat run_step. }
  rewrite !Get_ok in Hc by (apply truthy_not_nullish; assumption).
  cbn [negb bind] in Hc.
  destruct (is_undefined (prop (prop body "location") "lat")) eqn:Hlat.
  { repeat run_step. }
  cbn [bind] in Hc.
  destruct (is_undefined (prop (prop body "location") "lng")) eqn:Hlng.
  { repeat run_step. }
  repeat run_step. simpl.
  match goal with
  | Hp : interpolate _ [prop body "pitch"; _; _] = Next _ |- _ =>
      destruct (interpolate_three _ _ _ _ _ Hp) as (Hp1 & Hp2 & Hp3)
  end.
  repeat split; auto.
Qed.

Lemma Echo_check_Respond (body : Value) (r : Response) :
  Echo.check H body = Respond r ->
  code r = 400 /\
  (truthy (prop body "imageData") = false \/
   truthy (prop body "location") = false \/
   is_undefined (prop (prop body "location") "lat") = true \/
   is_undefined (prop (prop body "location") "lng") = true).
Proof.
  intros Hc. unfold Echo.check, Echo.logged in Hc.
  destruct (is_nullish body) eqn:Hn.
  { destruct body; discriminate. }
  rewrite !destructure_ok in Hc by assumption. cbn [bind] in Hc.
  destruct (truthy (prop body "imageData")) eqn:Hi.
  2:{ cbn [negb bind] in Hc. injection Hc as <-. auto. }
  destruct (truthy (prop body "location")) eqn:Hl.
  2:{ repeat run_step; try dismiss; auto. }
  rewrite !Get_ok in Hc by (apply truthy_not_nullish; assumption).
  cbn [negb bind] in Hc.
  destruct (is_undefined (prop (prop body "location") "lat")) eqn:Hlat.
  { repeat run_step; try dismiss; auto 6. }
  cbn [bind] in Hc.
  destruct (is_undefined (prop (prop body "location") "lng")) eqn:Hlng.
  { repeat run_step; try dismiss; auto 6. }
  repeat run_step; try dismiss.
Qed.

(** Once the checks have passed, the description templates decide: two
    numeric coordinates give the 200 answer, anything else throws. *)
Lemma Echo_descriptions_numbers (r : Echo.Checked) (x y : float) :
  prop (Echo.location r) "lat" = Num x ->
  prop (Echo.location r) "lng" = Num y ->
  (exists s, ToString E (Echo.pitch r) = Next s) ->
  (exists s, ToString E (Echo.bearing r) = Next s) ->
  (exists s, ToString E (Echo.zoom r) = Next s) ->
  exists a b c d e, Echo.descriptions H r = Next [a; b; c; d; e].
Proof.
  intros Hlat Hlng [sp Hp] [sb Hb] [sz Hz].
  unfold Echo.descriptions.
  assert (Hn : is_nullish (Echo.location r) = false).
  { apply defined_not_nullish with (key := "lat"). rewrite Hlat. reflexivity. }
  rewrite !Get_ok by assumption. cbn [bind]. rewrite Hlat, Hlng. cbn [call_toFixed bind].
  unfold greater_than. destruct (ToNumber_of_ToString _ _ _ Hp) as [n ->].
  cbn [bind]. rewrite Hp, Hb, Hz. cbn [bind]. eauto 10.
Qed.

Lemma Echo_descriptions_throw (r : Echo.Checked) :
  is_nullish (Echo.location r) = false ->
  is_number (prop (Echo.location r) "lat") = false \/
  is_number (prop (Echo.location r) "lng") = false ->
  exists e, Echo.descriptions H r = Throw e.
Proof.
  intros Hn Hnum. unfold Echo.descriptions.
  rewrite !Get_ok by assumption. cbn [bind].
  destruct (prop (Echo.location r) "lat") eqn:Hlat; cbn [call_toFixed bind]; eauto.
  destruct Hnum as [Hnum|Hnum]; [discriminate|].
  destruct (prop (Echo.location r) "lng") eqn:Hlng; cbn [call_toFixed bind]; eauto.
  discriminate.
Qed.

Lemma Echo_handler_checked (body : Value) (r : Echo.Checked) :
  Echo.check H body = Next r ->
  Echo.handler H body = finish (Echo.caught H) (Echo.respond H r).
Proof. intros Hc. unfold Echo.handler. rewrite Hc. reflexivity. Qed.

Lemma Echo_handler_thrown (body : Value) (e : Error) :
  Echo.check H body = Throw e -> Echo.handler H body = Echo.caught H e.
Proof. intros Hc. unfold Echo.handler. rewrite Hc. reflexivity. Qed.

Lemma Echo_handler_responded (body : Value) (r : Response) :
  Echo.check H body = Respond r -> Echo.handler H body = r.
Proof. intros Hc. unfold Echo.handler. rewrite Hc. reflexivity. Qed.

Lemma Echo_respond_cases (r : Echo.Checked) :
  (exists image description, Echo.respond H r = Next (Echo.sent H r image description)
     /\ ToString E (Echo.imageData r) = Next image)
  \/ (exists e, Echo.respond H r = Throw e).
Proof.
  unfold Echo.respond.
  destruct (Echo.descriptions H r) as [all|r'|e] eqn:Hd; cbn [bind].
  - destruct (ToString E (Echo.imageData r)) as [image|r'|e] eqn:Hi; cbn [bind].
    + left. eexists _, _. split; reflexivity.
    + dismiss.
    + right. eauto.
  - exfalso. revert Hd. generalize r'. change (quiet (Echo.descriptions H r)).
    unfold Echo.descriptions.
    repeat (apply quiet_bind; [auto with quiet | intros]). apply quiet_Next.
  - right. eauto.
Qed.

End EchoFacts.

(** ** The single-provider server, step by step *)

Section SingleFacts.

Variable H : Host.
Local Abbreviation E := (engine H).

Lemma Single_prepare_Next (body : Value) (r : Single.Prepared) :
  Single.prepare H body = Next r ->
  Single.imageData r = prop body "imageData" /\
  Single.pitch r = prop body "pitch" /\
  Single.bearing r = prop body "bearing" /\
  Single.zoom r = prop body "zoom" /\
  Single.location r = prop body "location" /\
  truthy (prop body "imageData") = true /\
  truthy (prop body "location") = true /\
  truthy (prop (prop body "location") "lat") = true /\
  truthy (prop (prop body "location") "lng") = true /\
  sizeInMB E (prop body "imageData") = Next (Single.size r) /\
  exceeds_15 (Single.size r) = false.
Proof.
  intros Hc. unfold Single.prepare in Hc.
  destruct (is_nullish body) eqn:Hn; cbn [bind] in Hc; [discriminate|].
  rewrite !destructure_ok in Hc by assumption.
  cbn [bind] in Hc.
  destruct (truthy (prop body "imageData")) eqn:Hi; cbn [negb bind] in Hc; [|discriminate].
  destruct (truthy (prop body "location")) eqn:Hl; cbn [negb bind] in Hc; [|discriminate].
  rewrite !Get_ok in Hc by (apply truthy_not_nullish; assumption).
  cbn [bind] in Hc.
  destruct (truthy (prop (prop body "location") "lat")) eqn:Hlat;
    cbn [negb bind] in Hc; [|discriminate].
  destruct (truthy (prop (prop body "location") "lng")) eqn:Hlng;
    cbn [negb bind] in Hc; [|discriminate].
  repeat run_step. simpl. repeat split; auto.
Qed.

Lemma Single_prepare_Respond (body : Value) (r : Response) :
  Single.prepare H body = Respond r ->
  (r = no_image /\ truthy (prop body "imageData") = false)
  \/ (r = invalid_location /\ truthy (prop body "imageData") = true /\
      (truthy (prop body "location") = false \/
       truthy (prop (prop body "location") "lat") = false \/
       truthy (prop (prop body "location") "lng") = false))
  \/ (exists size, r = Single.too_large H size /\
        truthy (prop body "imageData") = true /\
        truthy (prop body "location") = true /\
        truthy (prop (prop body "location") "lat") = true /\
        truthy (prop (prop body "location") "lng") = true /\
        sizeInMB E (prop body "imageData") = Next size /\
        exceeds_15 size = true).
Proof.
  intros Hc. unfold Single.prepare in Hc.
  destruct (is_nullish body) eqn:Hn; cbn [bind] in Hc; [discriminate|].
  rewrite !destructure_ok in Hc by assumption.
  cbn [bind] in Hc.
  destruct (truthy (prop body "imageData")) eqn:Hi; cbn [negb bind] in Hc.
  2:{ injection Hc as <-. auto. }
  destruct (truthy (prop body "location")) eqn:Hl; cbn [negb bind] in Hc.
  2:{ injection Hc as <-. right; left. auto. }
  rewrite !Get_ok in Hc by (apply truthy_not_nullish; assumption).
  cbn [bind] in Hc.
  destruct (truthy (prop (prop body "location") "lat")) eqn:Hlat; cbn [negb bind] in Hc.
  2:{ injection Hc as <-. right; left. auto. }
  destruct (truthy (prop (prop body "location") "lng")) eqn:Hlng; cbn [negb bind] in Hc.
  2:{ injection Hc as <-. right; left. auto. }
  destruct (sizeInMB E (prop body "imageData")) as [size|r'|e] eqn:Hs; cbn [bind] in Hc;
    [|dismiss|discriminate].
  destruct (exceeds_15 size) eqn:Hx; cbn [bind] in Hc.
  - injection Hc as <-. right; right. exists size. repeat split; auto.
  - repeat run_step; dismiss.
Qed.

Lemma Single_delegate_failure (r : Single.Prepared) (image : string) (e : Error) :
  ToString E (Single.imageData r) = Next image ->
  failure E (Single.call H r) = Some e ->
  Single.delegate H r = Next (Single.degraded H r image e).
Proof.
  intros Hi Hf. unfold Single.delegate.
  destruct (Single.call H r) as [e'|b|e'|text]; simpl in Hf; try discriminate;
    injection Hf as <-; unfold Single.degrade; rewrite Hi; reflexivity.
Qed.

Lemma Single_delegate_answer (r : Single.Prepared) (image text : string) :
  ToString E (Single.imageData r) = Next image ->
  Single.call H r = Answered text ->
  Single.delegate H r = Next (Single.success H r image text).
Proof.
  intros Hi Hf. unfold Single.delegate. rewrite Hf.
  unfold Single.succeed. rewrite Hi. reflexivity.
Qed.

Lemma Single_delegate_cases (r : Single.Prepared) :
  (exists image, ToString E (Single.imageData r) = Next image /\
     ((exists text, Single.call H r = Answered text /\
         Single.delegate H r = Next (Single.success H r image text))
      \/ (exists e, failure E (Single.call H r) = Some e /\
         Single.delegate H r = Next (Single.degraded H r image e))))
  \/ (exists e, Single.delegate H r = Throw e).
Proof.
  destruct (ToString E (Single.imageData r)) as [image|r'|e] eqn:Hi.
  - left. exists image. split; [reflexivity|].
    destruct (Single.call H r) as [e'|b|e'|text] eqn:Hc.
    + right. exists e'. split; [reflexivity|].
      apply Single_delegate_failure; [assumption | rewrite Hc; reflexivity].
    + right. eexists. split; [reflexivity|].
      apply Single_delegate_failure; [assumption | rewrite Hc; reflexivity].
    + right. exists e'. split; [reflexivity|].
      apply Single_delegate_failure; [assumption | rewrite Hc; reflexivity].
    + left. exists text. split; [reflexivity|].
      apply Single_delegate_answer; assumption.
  - dismiss.
  - right. unfold Single.delegate, Single.succeed, Single.degrade. rewrite Hi. cbn [bind].
    destruct (Single.call H r); eauto.
Qed.

Lemma Single_handler_prepared (body : Value) (r : Single.Prepared) :
  Single.prepare H body = Next r ->
  Single.handler H body = finish (Single.caught) (Single.delegate H r).
Proof. intros Hc. unfold Single.handler. rewrite Hc. reflexivity. Qed.

Lemma Single_handler_thrown (body : Value) (e : Error) :
  Single.prepare H body = Throw e -> Single.handler H body = Single.caught e.
Proof. intros Hc. unfold Single.handler. rewrite Hc. reflexivity. Qed.

Lemma Single_handler_responded (body : Value) (r : Response) :
  Single.prepare H body = Respond r -> Single.handler H body = r.
Proof. intros Hc. unfold Single.handler. rewrite Hc. reflexivity. Qed.

End SingleFacts.

(** ** The multi-provider server, step by step *)

Section MultiFacts.

Variable H : Host.
Local Abbreviation E := (engine H).

Lemma Multi_prepare_Next (body : Value) (r : Multi.Prepared) :
  Multi.prepare H body = Next r ->
  Multi.imageData r = prop body "imageData" /\
  Multi.pitch r = prop body "pitch" /\
  Multi.bearing r = prop body "bearing" /\
  Multi.zoom r = prop body "zoom" /\
  Multi.location r = prop body "location" /\
  truthy (prop body "imageData") = true.
Proof.
  intros Hc. unfold Multi.prepare in Hc.
  destruct (is_nullish body) eqn:Hn.
  { destruct body; discriminate. }
  rewrite !destructure_ok in Hc by assumption. cbn [bind] in Hc.
  destruct (truthy (prop body "imageData")) eqn:Hi; cbn [negb bind] in Hc; [|discriminate].
  repeat run_step. simpl. repeat split; auto.
Qed.

Lemma Multi_prepare_Respond (body : Value) (r : Response) :
  Multi.prepare H body = Respond r ->
  r = no_image /\ truthy (prop body "imageData") = false.
Proof.
  intros Hc. unfold Multi.prepare in Hc.
  destruct (is_nullish body) eqn:Hn.
  { destruct body; discriminate. }
  rewrite !destructure_ok in Hc by assumption. cbn [bind] in Hc.
  destruct (truthy (prop body "imageData")) eqn:Hi; cbn [negb bind] in Hc.
  2:{ injection Hc as <-. auto. }
  repeat run_step; dismiss.
Qed.

Lemma Multi_delegate_cases (r : Multi.Prepared) :
  (exists image text, Multi.call H r = Answered text /\
     ToString E (Multi.imageData r) = Next image /\
     Multi.delegate H r = Next (Multi.success H r image text))
  \/ (exists e, Multi.delegate H r = Throw e).
Proof.
  unfold Multi.delegate, Multi.describe.
  destruct (Multi.call H r) as [e|[|]|e|text] eqn:Hc; cbn [bind]; eauto.
  destruct (ToString E (Multi.imageData r)) as [image|r'|e] eqn:Hi; cbn [bind].
  - left. exists image, text. auto.
  - dismiss.
  - eauto.
Qed.

Lemma Multi_delegate_unanswered (r : Multi.Prepared) :
  (forall text, Multi.call H r <> Answered text) ->
  exists e, Multi.delegate H r = Throw e.
Proof.
  intros Hn. unfold Multi.delegate, Multi.describe.
  destruct (Multi.call H r) as [e|[|]|e|text] eqn:Hc; cbn [bind]; eauto.
  destruct (Hn text); reflexivity.
Qed.

Lemma Multi_handler_prepared (body : Value) (r : Multi.Prepared) :
  Multi.prepare H body = Next r ->
  Multi.handler H body = finish (Multi.caught) (Multi.delegate H r).
Proof. intros Hc. unfold Multi.handler. rewrite Hc. reflexivity. Qed.

Lemma Multi_handler_thrown (body : Value) (e : Error) :
  Multi.prepare H body = Throw e -> Multi.handler H body = Multi.caught e.
Proof. intros Hc. unfold Multi.handler. rewrite Hc. reflexivity. Qed.

Lemma Multi_handler_responded (body : Value) (r : Response) :
  Multi.prepare H body = Respond r -> Multi.handler H body = r.
Proof. intros Hc. unfold Multi.handler. rewrite Hc. reflexivity. Qed.

End MultiFacts.

(** ** A large payload *)

Lemma strlen_iter (n : N) (c : ascii) (s : string) :
  strlen (N.iter n (String c) s) = (n + strlen s)%N.
Proof.
  induction n as [|n IH] using N.peano_ind; [reflexivity|].
  rewrite N.iter_succ. cbn [strlen]. rewrite IH. lia.
Qed.

Lemma Large_length : strlen Large.payload = Large.length.
Proof. unfold Large.payload. rewrite strlen_iter. cbn [strlen]. apply N.add_0_r. Qed.

Lemma Large_nonempty : exists rest, Large.payload = String "A" rest.
Proof.
  unfold Large.payload, Large.length.
  change 33554432%N with (N.succ 33554431).
  rewrite N.iter_succ. eauto.
Qed.

(** ** Arithmetic of the size gate *)

Lemma hundredths_nearest (len : N) :
  (2097152 * hundredths_of_MB len <= 150 * len + 1048576
   < 2097152 * (hundredths_of_MB len + 1))%N.
Proof.
  unfold hundredths_of_MB.
  pose proof (N.div_mod (150 * len + 1048576) 2097152 ltac:(discriminate)) as Hd.
  pose proof (N.mod_lt (150 * len + 1048576) 2097152 ltac:(discriminate)) as Hm.
  revert Hd Hm.
  generalize ((150 * len + 1048576) / 2097152)%N ((150 * len + 1048576) mod 2097152)%N.
  intros q m Hd Hm. lia.
Qed.

Lemma gate_threshold (len : N) :
  (1500 <? hundredths_of_MB len)%N = true <-> (20978511 <= len)%N.
Proof.
  pose proof (hundredths_nearest len) as Hn.
  rewrite N.ltb_lt. lia.
Qed.

(** ** When a request reaches the backend call *)

Lemma interpolate_all (E : Engine) (vs : list Value) :
  Forall (fun v => exists s, ToString E v = Next s) vs ->
  exists ss, interpolate E vs = Next ss.
Proof.
  induction 1 as [|v vs [s Hs] _ [ss IH]]; simpl; [eauto|].
  rewrite Hs, IH. cbn [bind]. eauto.
Qed.

Lemma template_all (pieces : list Piece) :
  Forall (fun p => match p with
                   | Lit _ => True
                   | Sub c => exists s, c = Next s
                   end) pieces ->
  exists text, template pieces = Next text.
Proof.
  induction 1 as [|p ps Hp _ [tail IH]]; simpl; [eauto|].
  destruct p as [text|c].
  - rewrite IH. cbn [bind]. eauto.
  - destruct Hp as [s ->]. rewrite IH. cbn [bind]. eauto.
Qed.

Lemma Single_prompt_Next (H : Host) (lat lng pitch bearing zoom : Value) :
  Forall (fun v => exists s, ToString (engine H) v = Next s)
    [lat; lng; pitch; bearing; zoom] ->
  exists text, Single.prompt_for H lat lng pitch bearing zoom = Next text.
Proof.
  intros Hall.
  inversion Hall as [|? ? Ha Hall1]; subst.
  inversion Hall1 as [|? ? Hb Hall2]; subst.
  inversion Hall2 as [|? ? Hp Hall3]; subst.
  inversion Hall3 as [|? ? Hq Hall4]; subst.
  inversion Hall4 as [|? ? Hz _]; subst.
  unfold Single.prompt_for. apply template_all. repeat constructor; assumption.
Qed.

Lemma Multi_prompt_Next (H : Host) (lat lng pitch bearing zoom : Value) :
  Forall (fun v => exists s, ToString (engine H) v = Next s)
    [lat; lng; pitch; bearing; zoom] ->
  exists text, Multi.prompt_for H lat lng pitch bearing zoom = Next text.
Proof.
  intros Hall.
  inversion Hall as [|? ? Ha Hall1]; subst.
  inversion Hall1 as [|? ? Hb Hall2]; subst.
  inversion Hall2 as [|? ? Hp Hall3]; subst.
  inversion Hall3 as [|? ? Hq Hall4]; subst.
  inversion Hall4 as [|? ? Hz _]; subst.
  destruct Ha as [sa Ha]. destruct Hp as [sp Hp].
  destruct (ToNumber_of_ToString _ _ _ Ha) as [xa Hxa].
  destruct (ToNumber_of_ToString _ _ _ Hp) as [xp Hxp].
  unfold Multi.prompt_for. apply template_all.
  repeat constructor; eauto; unfold greater_than;
    rewrite ?Hxa, ?Hxp; cbn [bind]; eauto.
Qed.

(** The single-provider server calls the backend for every body whose
    imageData, location and coordinates are truthy, whose size does not
    exceed the limit, and whose five interpolated fields convert to text. *)
Lemma Single_reaches_backend (H : Host) (body : Value) (size : Numeral) :
  truthy (prop body "imageData") = true ->
  truthy (prop body "location") = true ->
  truthy (prop (prop body "location") "lat") = true ->
  truthy (prop (prop body "location") "lng") = true ->
  sizeInMB (engine H) (prop body "imageData") = Next size ->
  exceeds_15 size = false ->
  Forall (fun v => exists s, ToString (engine H) v = Next s)
    [prop (prop body "location") "lat"; prop (prop body "location") "lng";
     prop body "pitch"; prop body "bearing"; prop body "zoom"] ->
  exists r, Single.prepare H body = Next r.
Proof.
  intros Hi Hl Hlat Hlng Hs Hx Hall.
  assert (Hn : is_nullish body = false).
  { destruct body; try reflexivity; discriminate. }
  destruct (Single_prompt_Next H _ _ _ _ _ Hall) as [text Ht].
  inversion Hall as [|? ? Ha Hall1]; subst.
  inversion Hall1 as [|? ? Hb Hall2]; subst.
  unfold Single.prepare.
  rewrite Hn, !destructure_ok by assumption. cbn [bind]. rewrite Hi, Hl. cbn [negb bind].
  rewrite !Get_ok by (apply truthy_not_nullish; assumption). cbn [bind].
  rewrite Hlat, Hlng. cbn [negb bind]. rewrite Hs. cbn [bind]. rewrite Hx. cbn [bind].
  destruct (interpolate_all (engine H) _ (Forall_cons _ Ha (Forall_cons _ Hb (Forall_nil _))))
    as [ss1 ->].
  destruct (interpolate_all (engine H) _ Hall2) as [ss2 ->]. cbn [bind].
  rewrite Ht. cbn [bind]. eauto.
Qed.

(** The multi-provider server calls the backend for every body whose
    imageData is truthy, whose location is neither undefined nor null, and
    whose five interpolated fields convert to text. *)
Lemma Multi_reaches_backend (H : Host) (body : Value) :
  truthy (prop body "imageData") = true ->
  is_nullish (prop body "location") = false ->
  Forall (fun v => exists s, ToString (engine H) v = Next s)
    [prop (prop body "location") "lat"; prop (prop body "location") "lng";
     prop body "pitch"; prop body "bearing"; prop body "zoom"] ->
  exists r, Multi.prepare H body = Next r.
Proof.
  intros Hi Hl Hall.
  assert (Hn : is_nullish body = false).
  { destruct body; try reflexivity; discriminate. }
  destruct (Multi_prompt_Next H _ _ _ _ _ Hall) as [text Ht].
  inversion Hall as [|? ? Ha Hall1]; subst.
  inversion Hall1 as [|? ? Hb Hall2]; subst.
  unfold Multi.prepare.
  rewrite !destructure_ok by assumption. cbn [bind]. rewrite Hi. cbn [negb bind].
  rewrite !Get_ok by assumption. cbn [bind].
  destruct (interpolate_all (engine H) _ (Forall_cons _ Ha (Forall_cons _ Hb (Forall_nil _))))
    as [ss1 ->].
  destruct (interpolate_all (engine H) _ Hall2) as [ss2 ->]. cbn [bind].
  rewrite Ht. cbn [bind]. eauto.
Qed.

(** The echo server gets past its checks for every body whose imageData is
    a string or an array and truthy, whose location is truthy with both
    coordinates defined, and whose five interpolated fields convert to
    text. *)
Lemma Echo_passes_checks (H : Host) (body : Value) :
  truthy (prop body "imageData") = true ->
  is_object (prop body "imageData") = false ->
  truthy (prop body "location") = true ->
  is_undefined (prop (prop body "location") "lat") = false ->
  is_undefined (prop (prop body "location") "lng") = false ->
  Forall (fun v => exists s, ToString (engine H) v = Next s)
    [prop (prop body "location") "lat"; prop (prop body "location") "lng";
     prop body "pitch"; prop body "bearing"; prop body "zoom"] ->
  exists r, Echo.check H body = Next r.
Proof.
  intros Hi Ho Hl Hlat Hlng Hall.
  assert (Hn : is_nullish body = false).
  { destruct body; try reflexivity; discriminate. }
  inversion Hall as [|? ? Ha Hall1]; subst.
  inversion Hall1 as [|? ? Hb Hall2]; subst.
  unfold Echo.check.
  rewrite !destructure_ok by assumption. cbn [bind].
  destruct (Echo_logged_plain H _ Ho) as [ss ->]. cbn [bind]. rewrite Hi, Hl. cbn [negb bind].
  rewrite !Get_ok by (apply truthy_not_nullish; assumption). cbn [bind].
  rewrite Hlat. cbn [bind]. rewrite Hlng. cbn [bind].
  destruct (interpolate_all (engine H) _ (Forall_cons _ Ha (Forall_cons _ Hb (Forall_nil _))))
    as [ss1 ->].
  destruct (interpolate_all (engine H) _ Hall2) as [ss2 ->]. cbn [bind].
  assert (Hq : exists q, sizeInMB (engine H) (prop body "imageData") = Next q).
  { destruct (prop body "imageData"); cbn [sizeInMB]; eauto; try discriminate;
      cbn [Get prop bind ToNumber]; eauto. }
  destruct Hq as [q ->]. cbn [bind]. eauto.
Qed.

(** * The claims *)

Lemma echo_ignores_backend (H : Host) (g : ModelParams -> list Part -> Reply)
    (body : Value) :
  Echo.handler (mkHost (engine H) (toISOString H) (getHours H) (random_pick H) g) body
  = Echo.handler H body.
Proof. reflexivity. Qed.

(** C1, amended.  In the single-provider server, a request whose imageData
    is a string and that reaches the backend call is answered, when the
    call fails, with status 200, [success: false], the image re-wrapped as
    a data URL and a description that quotes the failure message.  In the
    multi-provider server the same failure is answered with status 500 and
    no image.  The echo server makes no backend call. *)
Theorem C1_backend_failure (H : Host) (body : Value) :
  (forall r s e,
      Single.prepare H body = Next r ->
      prop body "imageData" = Str s ->
      failure (engine H) (Single.call H r) = Some e ->
      let sent := Single.handler H body in
      code sent = 200 /\
      answer sent "success" = Bool false /\
      answer sent "image" = Str ("data:image/png;base64," ++ s) /\
      answer sent "description"
      = Str ("⚠️ AI generation failed: " ++ message e ++ "

Returning original map image."))
  /\ (forall r,
      Multi.prepare H body = Next r ->
      (forall text, Multi.call H r <> Answered text) ->
      code (Multi.handler H body) = 500 /\
      answer (Multi.handler H body) "image" = Undefined)
  /\ (forall g,
      Echo.handler (mkHost (engine H) (toISOString H) (getHours H) (random_pick H) g) body
      = Echo.handler H body).
Proof.
  split; [|split].
  - intros r s e Hp Hs Hf sent. subst sent.
    destruct (Single_prepare_Next H body r Hp) as (Hi & _).
    rewrite (Single_handler_prepared H body r Hp).
    rewrite (Single_delegate_failure H r s e); [| rewrite Hi, Hs; reflexivity | assumption].
    repeat split.
  - intros r Hp Hn.
    rewrite (Multi_handler_prepared H body r Hp).
    destruct (Multi_delegate_unanswered H r Hn) as [e ->].
    split; reflexivity.
  - intros g. apply echo_ignores_backend.
Qed.

(** The quota error of [Sample.failing] on the request of the specification *)
Lemma C1_witness :
  code (Single.handler Sample.failing Sample.hanoi) = 200 /\
  answer (Single.handler Sample.failing Sample.hanoi) "success" = Bool false /\
  code (Multi.handler Sample.failing Sample.hanoi) = 500.
Proof.
  assert (Hs : exists r, Single.prepare Sample.failing Sample.hanoi = Next r)
    by (eexists; vm_compute; reflexivity).
  assert (Hm : exists r, Multi.prepare Sample.failing Sample.hanoi = Next r)
    by (eexists; vm_compute; reflexivity).
  destruct Hs as [r Hs]. destruct Hm as [r' Hm].
  destruct (C1_backend_failure Sample.failing Sample.hanoi) as (Hsingle & Hmulti & _).
  destruct (Hsingle r "iVBORw0KGgo=" Sample.quota Hs eq_refl eq_refl) as (H1 & H2 & _).
  destruct (Hmulti r' Hm ltac:(intros text; discriminate)) as (H3 & _).
  auto.
Defined.

(** C1 as stated fails: the multi-provider server answers 500 when the
    backend rejects the call, for a request that passed its checks. *)
Lemma C1_multi_provider_answers_500 :
  (exists r, Multi.prepare Sample.failing Sample.hanoi = Next r /\
             Multi.call Sample.failing r = Rejected Sample.quota) /\
  code (Multi.handler Sample.failing Sample.hanoi) = 500.
Proof.
  split; [|vm_compute; reflexivity].
  eexists. split; [vm_compute; reflexivity | reflexivity].
Qed.

(** Every answer with status 200 carries the image of the request. *)
Lemma Echo_200 (H : Host) (body : Value) :
  code (Echo.handler H body) = 200 ->
  exists r image description,
    Echo.check H body = Next r /\
    ToString (engine H) (prop body "imageData") = Next image /\
    Echo.handler H body = Echo.sent H r image description.
Proof.
  intros Hc. destruct (Echo.check H body) as [r|r'|e] eqn:Hk.
  - rewrite (Echo_handler_checked H body r Hk) in Hc |- *.
    destruct (Echo_check_Next H body r Hk) as (Hi & _).
    destruct (Echo_respond_cases H r) as [(image & d & Hr & Ht)|[e Hr]];
      rewrite Hr in Hc |- *; [|discriminate].
    exists r, image, d. rewrite <- Hi. auto.
  - rewrite (Echo_handler_responded H body r' Hk) in Hc.
    destruct (Echo_check_Respond H body r' Hk) as (H4 & _). congruence.
  - rewrite (Echo_handler_thrown H body e Hk) in Hc. discriminate.
Qed.

Lemma Single_200 (H : Host) (body : Value) :
  code (Single.handler H body) = 200 ->
  exists r image,
    Single.prepare H body = Next r /\
    ToString (engine H) (prop body "imageData") = Next image /\
    ((exists text, Single.call H r = Answered text /\
        Single.handler H body = Single.success H r image text)
     \/ (exists e, failure (engine H) (Single.call H r) = Some e /\
        Single.handler H body = Single.degraded H r image e)).
Proof.
  intros Hc. destruct (Single.prepare H body) as [r|r'|e] eqn:Hk.
  - rewrite (Single_handler_prepared H body r Hk) in Hc |- *.
    destruct (Single_prepare_Next H body r Hk) as (Hi & _).
    destruct (Single_delegate_cases H r)
      as [(image & Ht & [(text & Ha & Hd)|(e & Hf & Hd)])|[e Hd]];
      rewrite Hd in Hc |- *; try discriminate;
      exists r, image; rewrite <- Hi; eauto 8.
  - rewrite (Single_handler_responded H body r' Hk) in Hc.
    destruct (Single_prepare_Respond H body r' Hk)
      as [(-> & _)|[(-> & _)|(size & -> & _)]]; discriminate.
  - rewrite (Single_handler_thrown H body e Hk) in Hc. discriminate.
Qed.

Lemma Multi_200 (H : Host) (body : Value) :
  code (Multi.handler H body) = 200 ->
  exists r image text,
    Multi.prepare H body = Next r /\
    Multi.call H r = Answered text /\
    ToString (engine H) (prop body "imageData") = Next image /\
    Multi.handler H body = Multi.success H r image text.
Proof.
  intros Hc. destruct (Multi.prepare H body) as [r|r'|e] eqn:Hk.
  - rewrite (Multi_handler_prepared H body r Hk) in Hc |- *.
    destruct (Multi_prepare_Next H body r Hk) as (Hi & _).
    destruct (Multi_delegate_cases H r) as [(image & text & Ha & Ht & Hd)|[e Hd]];
      rewrite Hd in Hc |- *; [|discriminate].
    exists r, image, text. rewrite <- Hi. auto.
  - rewrite (Multi_handler_responded H body r' Hk) in Hc.
    destruct (Multi_prepare_Respond H body r' Hk) as (-> & _). discriminate.
  - rewrite (Multi_handler_thrown H body e Hk) in Hc. discriminate.
Qed.

(** When the checks have passed, which status is answered *)
Lemma Echo_checked_numbers (H : Host) (body : Value) (r : Echo.Checked) (image : string) :
  Echo.check H body = Next r ->
  is_number (prop (prop body "location") "lat") = true ->
  is_number (prop (prop body "location") "lng") = true ->
  ToString (engine H) (prop body "imageData") = Next image ->
  exists description, Echo.handler H body = Echo.sent H r image description.
Proof.
  intros Hk Hlat Hlng Ht.
  destruct (Echo_check_Next H body r Hk)
    as (Hi & Hp & Hb & Hz & Hl & _ & _ & _ & _ & _ & Hsp & Hsb & Hsz).
  rewrite (Echo_handler_checked H body r Hk).
  destruct (prop (prop body "location") "lat") as [ | | | x | | | ] eqn:Hx; try discriminate.
  destruct (prop (prop body "location") "lng") as [ | | | y | | | ] eqn:Hy; try discriminate.
  destruct (Echo_descriptions_numbers H r x y) as (a & b & c & d & e & Hd);
    try (rewrite Hl; assumption); try (rewrite Hp; assumption);
    try (rewrite Hb; assumption); try (rewrite Hz; assumption).
  unfold Echo.respond. rewrite Hd. cbn [bind]. rewrite Hi, Ht. cbn [bind finish]. eauto.
Qed.

Lemma Echo_checked_not_numbers (H : Host) (body : Value) (r : Echo.Checked) :
  Echo.check H body = Next r ->
  is_number (prop (prop body "location") "lat") = false \/
  is_number (prop (prop body "location") "lng") = false ->
  exists e, Echo.handler H body = Echo.caught H e.
Proof.
  intros Hk Hn.
  destruct (Echo_check_Next H body r Hk) as (_ & _ & _ & _ & Hl & _ & Htl & _).
  rewrite (Echo_handler_checked H body r Hk).
  destruct (Echo_descriptions_throw H r) as [e Hd].
  - rewrite Hl. apply truthy_not_nullish. assumption.
  - rewrite Hl. assumption.
  - unfold Echo.respond. rewrite Hd. cbn [bind finish]. eauto.
Qed.

(** C2, amended.  For a request whose imageData is a string, every answer
    with status 200 has [image] equal to the data-URL prefix followed by
    that string: in the echo server when both coordinates are numbers, in
    the single-provider server whatever the backend does, in the
    multi-provider server when the backend answers.  When the backend of
    the multi-provider server fails the answer is a 500 without image. *)
Theorem C2_image_passthrough (H : Host) (body : Value) (s : string) :
  prop body "imageData" = Str s ->
  (code (Echo.handler H body) = 200 ->
   answer (Echo.handler H body) "image" = Str ("data:image/png;base64," ++ s))
  /\ (code (Single.handler H body) = 200 ->
      answer (Single.handler H body) "image" = Str ("data:image/png;base64," ++ s))
  /\ (code (Multi.handler H body) = 200 ->
      answer (Multi.handler H body) "image" = Str ("data:image/png;base64," ++ s))
  /\ (forall r,
      Echo.check H body = Next r ->
      is_number (prop (prop body "location") "lat") = true ->
      is_number (prop (prop body "location") "lng") = true ->
      code (Echo.handler H body) = 200)
  /\ (forall r, Single.prepare H body = Next r -> code (Single.handler H body) = 200)
  /\ (forall r text,
      Multi.prepare H body = Next r -> Multi.call H r = Answered text ->
      code (Multi.handler H body) = 200)
  /\ (forall r,
      Multi.prepare H body = Next r ->
      (forall text, Multi.call H r <> Answered text) ->
      code (Multi.handler H body) = 500 /\
      answer (Multi.handler H body) "image" = Undefined).
Proof.
  intros Hs. conjuncts.
  - intros Hc. destruct (Echo_200 H body Hc) as (r & image & d & _ & Ht & ->).
    rewrite Hs in Ht. injection Ht as <-. reflexivity.
  - intros Hc.
    destruct (Single_200 H body Hc)
      as (r & image & _ & Ht & [(text & _ & ->)|(e & _ & ->)]);
      rewrite Hs in Ht; injection Ht as <-; reflexivity.
  - intros Hc. destruct (Multi_200 H body Hc) as (r & image & text & _ & _ & Ht & ->).
    rewrite Hs in Ht. injection Ht as <-. reflexivity.
  - intros r Hk Hlat Hlng.
    destruct (Echo_checked_numbers H body r s Hk Hlat Hlng) as [d ->];
      [rewrite Hs; reflexivity | reflexivity].
  - intros r Hk. rewrite (Single_handler_prepared H body r Hk).
    destruct (Single_prepare_Next H body r Hk) as (Hi & _).
    destruct (Single_delegate_cases H r)
      as [(image & Ht & [(text & Ha & ->)|(e & Hf & ->)])|[e Hd]]; try reflexivity.
    exfalso. revert Hd. unfold Single.delegate, Single.succeed, Single.degrade.
    rewrite Hi, Hs. cbn [ToString bind]. destruct (Single.call H r); discriminate.
  - intros r text Hk Ha. rewrite (Multi_handler_prepared H body r Hk).
    destruct (Multi_prepare_Next H body r Hk) as (Hi & _).
    unfold Multi.delegate, Multi.describe. rewrite Ha, Hi, Hs. reflexivity.
  - intros r Hk Hn. rewrite (Multi_handler_prepared H body r Hk).
    destruct (Multi_delegate_unanswered H r Hn) as [e ->]. split; reflexivity.
Qed.

(** The request of the specification, answered by each server *)
Lemma C2_witness :
  answer (Echo.handler (Sample.answering "A city.") Sample.hanoi) "image"
  = Str "data:image/png;base64,iVBORw0KGgo=" /\
  answer (Single.handler Sample.failing Sample.hanoi) "image"
  = Str "data:image/png;base64,iVBORw0KGgo=" /\
  answer (Multi.handler (Sample.answering "A city.") Sample.hanoi) "image"
  = Str "data:image/png;base64,iVBORw0KGgo=".
Proof.
  destruct (C2_image_passthrough (Sample.answering "A city.") Sample.hanoi
              "iVBORw0KGgo=" eq_refl) as (He & _ & Hm & _).
  destruct (C2_image_passthrough Sample.failing Sample.hanoi
              "iVBORw0KGgo=" eq_refl) as (_ & Hs & _).
  split; [|split].
  - apply He. vm_compute. reflexivity.
  - apply Hs. vm_compute. reflexivity.
  - apply Hm. vm_compute. reflexivity.
Defined.

(** C2 as stated fails: on the failure path of the multi-provider server a
    request that passed its checks gets a 500 answer with no image. *)
Lemma C2_multi_provider_failure_has_no_image :
  (exists r, Multi.prepare Sample.failing Sample.hanoi = Next r) /\
  prop Sample.hanoi "imageData" = Str "iVBORw0KGgo=" /\
  code (Multi.handler Sample.failing Sample.hanoi) = 500 /\
  answer (Multi.handler Sample.failing Sample.hanoi) "image" = Undefined.
Proof.
  split; [eexists; vm_compute; reflexivity|].
  repeat split; vm_compute; reflexivity.
Qed.
Lemma Echo_400_only (H : Host) (body : Value) :
  code (Echo.handler H body) = 400 ->
  truthy (prop body "imageData") = false \/
  truthy (prop body "location") = false \/
  is_undefined (prop (prop body "location") "lat") = true \/
  is_undefined (prop (prop body "location") "lng") = true.
Proof.
  intros Hc. destruct (Echo.check H body) as [r|r'|e] eqn:Hk.
  - rewrite (Echo_handler_checked H body r Hk) in Hc.
    destruct (Echo_respond_cases H r) as [(image & d & Hr & _)|[e Hr]];
      rewrite Hr in Hc; discriminate.
  - destruct (Echo_check_Respond H body r' Hk) as (_ & Hb). assumption.
  - rewrite (Echo_handler_thrown H body e Hk) in Hc. discriminate.
Qed.

Lemma Multi_answer_cases (H : Host) (body : Value) :
  (exists r image text, Multi.handler H body = Multi.success H r image text)
  \/ (exists e, Multi.handler H body = Multi.caught e)
  \/ (Multi.handler H body = no_image /\ truthy (prop body "imageData") = false).
Proof.
  destruct (Multi.prepare H body) as [r|r'|e] eqn:Hk.
  - rewrite (Multi_handler_prepared H body r Hk).
    destruct (Multi_delegate_cases H r) as [(i & t & _ & _ & ->)|[e ->]];
      cbn [finish]; eauto 8.
  - rewrite (Multi_handler_responded H body r' Hk).
    destruct (Multi_prepare_Respond H body r' Hk) as (-> & Hi). auto.
  - rewrite (Multi_handler_thrown H body e Hk). eauto.
Qed.


(** What each server refuses at its validation step *)
Lemma Echo_refuses (H : Host) (body : Value) :
  is_nullish body = false ->
  is_object (prop body "imageData") = false ->
  truthy (prop body "imageData") = false \/
  truthy (prop body "location") = false \/
  prop (prop body "location") "lat" = Undefined \/
  prop (prop body "location") "lng" = Undefined ->
  code (Echo.handler H body) = 400.
Proof.
  intros Hn Ho Hbad. unfold Echo.handler, Echo.check.
  rewrite !destructure_ok by assumption. cbn [bind].
  destruct (truthy (prop body "imageData")) eqn:Hi.
  2:{ unfold Echo.logged. rewrite Hi. reflexivity. }
  destruct (Echo_logged_plain H _ Ho) as [ss ->]. cbn [negb bind].
  destruct Hbad as [Hbad|Hbad]; [discriminate|].
  destruct (truthy (prop body "location")) eqn:Hl; cbn [negb bind]; [|reflexivity].
  rewrite !Get_ok by (apply truthy_not_nullish; assumption). cbn [bind].
  destruct Hbad as [Hbad|[Hbad|Hbad]]; [discriminate| |].
  - rewrite Hbad. reflexivity.
  - rewrite Hbad.
    destruct (is_undefined (prop (prop body "location") "lat")); reflexivity.
Qed.

Lemma Single_refuses_image (H : Host) (body : Value) :
  is_nullish body = false ->
  truthy (prop body "imageData") = false ->
  Single.handler H body = no_image.
Proof.
  intros Hn Hi. unfold Single.handler, Single.prepare.
  rewrite Hn, !destructure_ok by assumption. cbn [bind]. rewrite Hi. reflexivity.
Qed.

Lemma Single_refuses_location (H : Host) (body : Value) :
  truthy (prop body "imageData") = true ->
  truthy (prop body "location") = false \/
  truthy (prop (prop body "location") "lat") = false \/
  truthy (prop (prop body "location") "lng") = false ->
  Single.handler H body = invalid_location.
Proof.
  intros Hi Hbad.
  assert (Hn : is_nullish body = false).
  { destruct body; try reflexivity; discriminate. }
  unfold Single.handler, Single.prepare.
  rewrite Hn, !destructure_ok by assumption. cbn [bind]. rewrite Hi. cbn [negb bind].
  destruct (truthy (prop body "location")) eqn:Hl; cbn [negb bind]; [|reflexivity].
  rewrite !Get_ok by (apply truthy_not_nullish; assumption). cbn [bind].
  destruct Hbad as [Hbad|[Hbad|Hbad]]; [discriminate| |].
  - rewrite Hbad. reflexivity.
  - rewrite Hbad.
    destruct (truthy (prop (prop body "location") "lat")); reflexivity.
Qed.

Lemma Multi_refuses_image (H : Host) (body : Value) :
  is_nullish body = false ->
  truthy (prop body "imageData") = false ->
  Multi.handler H body = no_image.
Proof.
  intros Hn Hi. unfold Multi.handler, Multi.prepare.
  rewrite !destructure_ok by assumption. cbn [bind]. rewrite Hi. reflexivity.
Qed.

Lemma Single_answer_cases (H : Host) (body : Value) :
  (exists r image text, Single.handler H body = Single.success H r image text)
  \/ (exists r image e, Single.handler H body = Single.degraded H r image e)
  \/ (exists e, Single.handler H body = Single.caught e)
  \/ (Single.handler H body = no_image /\ truthy (prop body "imageData") = false)
  \/ (Single.handler H body = invalid_location /\
      truthy (prop body "imageData") = true /\
      (truthy (prop body "location") = false \/
       truthy (prop (prop body "location") "lat") = false \/
       truthy (prop (prop body "location") "lng") = false))
  \/ (exists size, Single.handler H body = Single.too_large H size /\
      truthy (prop body "imageData") = true /\
      truthy (prop body "location") = true /\
      truthy (prop (prop body "location") "lat") = true /\
      truthy (prop (prop body "location") "lng") = true /\
      sizeInMB (engine H) (prop body "imageData") = Next size /\
      exceeds_15 size = true).
Proof.
  destruct (Single.prepare H body) as [r|r'|e] eqn:Hk.
  - rewrite (Single_handler_prepared H body r Hk).
    destruct (Single_delegate_cases H r)
      as [(image & Ht & [(text & Ha & ->)|(e & Hf & ->)])|[e ->]]; cbn [finish]; eauto 8.
  - rewrite (Single_handler_responded H body r' Hk).
    destruct (Single_prepare_Respond H body r' Hk) as [Hr|[Hr|Hr]]; auto 8.
  - rewrite (Single_handler_thrown H body e Hk). eauto 8.
Qed.

(** C3, amended.  A body is refused with status 400 at the validation step
    as follows.  In the echo server: exactly when imageData is falsy, or
    location is falsy, or location.lat or location.lng is undefined.  In
    the single-provider server: with "No image data provided" exactly when
    imageData is falsy; with "Invalid location data" when location is
    falsy or a coordinate is undefined; and not at all when imageData,
    location and both coordinates are truthy.  In the multi-provider
    server: exactly when imageData is falsy.  No server tests that a
    coordinate is a number.  A request that passes is used with its fields
    as they came. *)
Theorem C3_validation (H : Host) (body : Value) :
  is_nullish body = false ->
  let imageData := prop body "imageData" in
  let location := prop body "location" in
  let lat := prop location "lat" in
  let lng := prop location "lng" in
  (is_object imageData = false ->
   (code (Echo.handler H body) = 400 <->
    truthy imageData = false \/ truthy location = false \/
    lat = Undefined \/ lng = Undefined))
  /\ (Single.handler H body = no_image <-> truthy imageData = false)
  /\ (truthy imageData = true ->
      truthy location = false \/ lat = Undefined \/ lng = Undefined ->
      Single.handler H body = invalid_location)
  /\ (truthy imageData = true -> truthy location = true ->
      truthy lat = true -> truthy lng = true ->
      Single.handler H body <> no_image /\
      Single.handler H body <> invalid_location)
  /\ (code (Multi.handler H body) = 400 <-> truthy imageData = false)
  /\ (forall r, Echo.check H body = Next r ->
        Echo.imageData r = imageData /\ Echo.location r = location /\
        Echo.pitch r = prop body "pitch" /\ Echo.bearing r = prop body "bearing" /\
        Echo.zoom r = prop body "zoom")
  /\ (forall r, Single.prepare H body = Next r ->
        Single.imageData r = imageData /\ Single.location r = location /\
        Single.pitch r = prop body "pitch" /\ Single.bearing r = prop body "bearing" /\
        Single.zoom r = prop body "zoom")
  /\ (forall r, Multi.prepare H body = Next r ->
        Multi.imageData r = imageData /\ Multi.location r = location /\
        Multi.pitch r = prop body "pitch" /\ Multi.bearing r = prop body "bearing" /\
        Multi.zoom r = prop body "zoom").
Proof.
  intros Hn imageData location lat lng. subst imageData location lat lng.
  conjuncts.
  - intros Ho. split.
    + intros Hc.
      destruct (Echo_400_only H body Hc) as [Hb|[Hb|[Hb|Hb]]]; auto;
        apply is_undefined_true in Hb; auto.
    + apply Echo_refuses; assumption.
  - split.
    + intros Hr.
      destruct (Single_answer_cases H body)
        as [(r & i & t & Hs)|[(r & i & e & Hs)|[(e & Hs)|[(Hs & Hi)|
            [(Hs & Hi & _)|(size & Hs & _)]]]]]; try assumption;
        rewrite Hs in Hr; discriminate.
    + apply Single_refuses_image; assumption.
  - intros Hi Hbad. apply Single_refuses_location; [assumption|].
    destruct Hbad as [Hb|[Hb|Hb]]; auto; rewrite Hb; auto.
  - intros Hi Hl Hlat Hlng.
    destruct (Single_answer_cases H body)
      as [(r & i & t & Hs)|[(r & i & e & Hs)|[(e & Hs)|[(Hs & Hi')|
          [(Hs & _ & Hbad)|(size & Hs & _)]]]]];
      try (rewrite Hs; split; discriminate).
    + congruence.
    + destruct Hbad as [Hb|[Hb|Hb]]; congruence.
  - split.
    + intros Hc.
      destruct (Multi_answer_cases H body) as [(r & i & t & Hr)|[(e & Hr)|(Hr & Hi)]];
        try (rewrite Hr in Hc; discriminate).
      assumption.
    + intros Hi. rewrite (Multi_refuses_image H body Hn Hi). reflexivity.
  - intros r Hk.
    destruct (Echo_check_Next H body r Hk) as (Hi & Hp & Hb & Hz & Hl & _). auto.
  - intros r Hk.
    destruct (Single_prepare_Next H body r Hk) as (Hi & Hp & Hb & Hz & Hl & _). auto.
  - intros r Hk.
    destruct (Multi_prepare_Next H body r Hk) as (Hi & Hp & Hb & Hz & Hl & _). auto.
Qed.

(** A body without imageData, and a location without latitude *)
Lemma C3_witness :
  Single.handler (Sample.answering "A city.")
    Sample.equator_without_image
  = no_image /\
  code (Echo.handler (Sample.answering "A city.") Sample.no_latitude) = 400.
Proof.
  split.
  - apply (C3_validation (Sample.answering "A city.")
             Sample.equator_without_image eq_refl).
    reflexivity.
  - apply (C3_validation (Sample.answering "A city.") Sample.no_latitude eq_refl).
    + reflexivity.
    + right; right; left. reflexivity.
Defined.

(** C3 as stated fails: coordinates that are no numbers pass the
    validation of the single-provider server, and the request is served. *)
Lemma C3_words_pass_validation :
  is_number (prop (prop Sample.words "location") "lat") = false /\
  is_number (prop (prop Sample.words "location") "lng") = false /\
  (exists r, Single.prepare (Sample.answering "A city.") Sample.words = Next r) /\
  code (Single.handler (Sample.answering "A city.") Sample.words) = 200.
Proof.
  repeat split; try (vm_compute; reflexivity).
  eexists. vm_compute. reflexivity.
Qed.

(** C4, amended.  For a request whose imageData is a non-empty string of
    [len] characters, the size is [len * 0.75] bytes, shown in MB with two
    decimals, rounded to the nearest hundredth (half up).  The
    single-provider server, once the location has passed, answers 400 with
    that size and the limit [15 MB] whenever the rounded size exceeds 15,
    that is from 20978511 characters on, and does not refuse a size of at
    most 15 MB, that is up to 20971520 characters.  The echo server reports
    the same size in [metadata.imageSize] and never refuses for it; the
    multi-provider server computes no size. *)
Theorem C4_size_gate (H : Host) (body : Value) (s : string) :
  prop body "imageData" = Str s ->
  truthy (Str s) = true ->
  let len := strlen s in
  let hundredths := hundredths_of_MB len in
  let shown := fixed_text 2 hundredths ++ " MB" in
  let located :=
    truthy (prop body "location") = true /\
    truthy (prop (prop body "location") "lat") = true /\
    truthy (prop (prop body "location") "lng") = true in
  (2097152 * hundredths <= 150 * len + 1048576 < 2097152 * (hundredths + 1))%N
  /\ (located -> (20978511 <= len)%N ->
      Single.handler H body
      = status_json 400
          [("error", Str "Image too large. Please zoom out or reduce resolution.");
           ("size", Str shown);
           ("limit", Str "15 MB")])
  /\ (located -> (len <= 20971520)%N -> code (Single.handler H body) <> 400)
  /\ (code (Echo.handler H body) = 200 ->
      prop (answer (Echo.handler H body) "metadata") "imageSize" = Str shown)
  /\ (truthy (prop body "location") = true ->
      is_undefined (prop (prop body "location") "lat") = false ->
      is_undefined (prop (prop body "location") "lng") = false ->
      code (Echo.handler H body) <> 400)
  /\ code (Multi.handler H body) <> 400
  /\ answer (Multi.handler H body) "size" = Undefined.
Proof.
  intros Hs Ht len hundredths shown located.
  subst len hundredths shown located. conjuncts.
  - apply hundredths_nearest.
  - apply hundredths_nearest.
  - intros (Hl & Hlat & Hlng) Hlen.
    assert (Hn : is_nullish body = false).
    { destruct body; try reflexivity; discriminate. }
    unfold Single.handler, Single.prepare.
    rewrite Hn, !destructure_ok by assumption. cbn [bind]. rewrite Hs, Ht. cbn [negb bind].
    rewrite Hl. cbn [negb bind].
    rewrite !Get_ok by (apply truthy_not_nullish; assumption). cbn [bind].
    rewrite Hlat, Hlng. cbn [negb bind sizeInMB exceeds_15 andb].
    apply gate_threshold in Hlen. rewrite Hlen. reflexivity.
  - intros (Hl & Hlat & Hlng) Hlen Hc.
    destruct (Single_answer_cases H body)
      as [(r & i & t & Hr)|[(r & i & e & Hr)|[(e & Hr)|[(Hr & Hi)|
          [(Hr & Hi & Hbad)|(size & Hr & _ & _ & _ & _ & Hsize & Hx)]]]]];
      try (rewrite Hr in Hc; discriminate).
    + rewrite Hs, Ht in Hi. discriminate.
    + destruct Hbad as [Hb|[Hb|Hb]]; congruence.
    + rewrite Hs in Hsize. cbn [sizeInMB] in Hsize. injection Hsize as <-.
      cbn [exceeds_15 negb andb] in Hx. apply gate_threshold in Hx. lia.
  - intros Hc. destruct (Echo_200 H body Hc) as (r & image & d & Hk & _ & ->).
    destruct (Echo_check_Next H body r Hk) as (_ & _ & _ & _ & _ & _ & _ & _ & _ & Hsize & _).
    rewrite Hs in Hsize. cbn [sizeInMB] in Hsize. injection Hsize as Hsize.
    unfold Echo.sent, answer. cbn [json status_json prop lookup find fst snd String.eqb
      Ascii.eqb Bool.eqb]. rewrite <- Hsize. reflexivity.
  - intros Hl Hlat Hlng Hc.
    destruct (Echo_400_only H body Hc) as [Hb|[Hb|[Hb|Hb]]]; congruence.
  - intros Hc.
    destruct (Multi_answer_cases H body) as [(r & i & t & Hr)|[(e & Hr)|(Hr & Hi)]];
      try (rewrite Hr in Hc; discriminate).
    rewrite Hs, Ht in Hi. discriminate.
  - destruct (Multi_answer_cases H body) as [(r & i & t & ->)|[(e & ->)|(-> & Hi)]];
      reflexivity.
Qed.

Lemma Echo_serves_strings (H : Host) (c : ascii) (rest : string)
    (pitch bearing zoom lat lng : float) :
  code (Echo.handler H
          (Sample.body (Str (String c rest)) (Num pitch) (Num bearing) (Num zoom)
             (Sample.coordinates (Num lat) (Num lng)))) = 200.
Proof. reflexivity. Qed.

(** Thirty-two Mi characters are refused as 24.00 MB *)
Lemma C4_witness :
  Single.handler (Sample.answering "A city.")
    Sample.large
  = status_json 400
      [("error", Str "Image too large. Please zoom out or reduce resolution.");
       ("size", Str "24.00 MB");
       ("limit", Str "15 MB")].
Proof.
  destruct Large_nonempty as [rest Hrest].
  destruct (C4_size_gate (Sample.answering "A city.")
              Sample.large Large.payload eq_refl) as (_ & Hgate & _).
  - rewrite Hrest. reflexivity.
  - rewrite Large_length in Hgate. apply Hgate.
    + repeat split.
    + unfold Large.length. lia.
Defined.

(** C4 as stated fails: the echo server computes the estimate and serves
    the request all the same, here with 24 MB. *)
Lemma C4_echo_serves_24_MB :
  (15 * 1048576 * 4 < 3 * strlen Large.payload)%N /\
  code (Echo.handler (Sample.answering "A city.") Sample.large) = 200.
Proof.
  split.
  - rewrite Large_length. unfold Large.length. lia.
  - unfold Sample.large. destruct Large_nonempty as [rest ->].
    apply Echo_serves_strings.
Qed.

Lemma append_nonempty (a b : string) : b <> EmptyString -> a ++ b <> EmptyString.
Proof. destruct a; simpl; [auto | discriminate]. Qed.

(** C5, amended.  An answer with status 200 has [metadata.timestamp] set to
    the time the host gives.  Its description is never empty in the echo
    server and on the failure path of the single-provider server; on a
    success path it is the text of the backend as it came, empty if that
    text is empty.  When the backend of the multi-provider server fails,
    the answer is a 500 with neither description nor metadata. *)
Theorem C5_envelope (H : Host) (body : Value) :
  (code (Echo.handler H body) = 200 ->
   timestamp_of (Echo.handler H body) = Str (toISOString H) /\
   exists d, answer (Echo.handler H body) "description" = Str d /\ d <> EmptyString)
  /\ (code (Single.handler H body) = 200 ->
      timestamp_of (Single.handler H body) = Str (toISOString H) /\
      exists r,
        Single.prepare H body = Next r /\
        ((exists text, Single.call H r = Answered text /\
            answer (Single.handler H body) "description" = Str text)
         \/ (exists e d, failure (engine H) (Single.call H r) = Some e /\
            answer (Single.handler H body) "description" = Str d /\
            d <> EmptyString)))
  /\ (code (Multi.handler H body) = 200 ->
      timestamp_of (Multi.handler H body) = Str (toISOString H) /\
      exists r text,
        Multi.prepare H body = Next r /\
        Multi.call H r = Answered text /\
        answer (Multi.handler H body) "description" = Str text)
  /\ (forall r,
      Multi.prepare H body = Next r ->
      (forall text, Multi.call H r <> Answered text) ->
      code (Multi.handler H body) = 500 /\
      answer (Multi.handler H body) "description" = Undefined /\
      answer (Multi.handler H body) "metadata" = Undefined).
Proof.
  conjuncts.
  - intros Hc. destruct (Echo_200 H body Hc) as (r & image & d & _ & _ & ->).
    split; [reflexivity|].
    exists (d ++ Echo.note). split; [reflexivity|].
    apply append_nonempty. discriminate.
  - intros Hc.
    destruct (Single_200 H body Hc)
      as (r & image & Hk & _ & [(text & Ha & ->)|(e & Hf & ->)]).
    + split; [reflexivity|]. exists r. split; [assumption|]. left. eauto.
    + split; [reflexivity|]. exists r. split; [assumption|]. right.
      exists e. eexists. split; [assumption|]. split; [reflexivity|]. discriminate.
  - intros Hc. destruct (Multi_200 H body Hc) as (r & image & text & Hk & Ha & _ & ->).
    split; [reflexivity|]. exists r, text. auto.
  - intros r Hk Hn. rewrite (Multi_handler_prepared H body r Hk).
    destruct (Multi_delegate_unanswered H r Hn) as [e ->]. repeat split.
Qed.

(** The clock of the sample hosts in each answer *)
Lemma C5_witness :
  timestamp_of (Echo.handler (Sample.answering "A city.") Sample.hanoi)
  = Str "2025-01-01T00:00:00.000Z" /\
  timestamp_of (Single.handler Sample.failing Sample.hanoi)
  = Str "2025-01-01T00:00:00.000Z" /\
  timestamp_of (Multi.handler (Sample.answering "A city.") Sample.hanoi)
  = Str "2025-01-01T00:00:00.000Z".
Proof.
  destruct (C5_envelope (Sample.answering "A city.") Sample.hanoi) as (He & _ & Hm & _).
  destruct (C5_envelope Sample.failing Sample.hanoi) as (_ & Hs & _).
  split; [|split].
  - apply He. vm_compute. reflexivity.
  - apply Hs. vm_compute. reflexivity.
  - apply Hm. vm_compute. reflexivity.
Defined.

(** C5 as stated fails twice: the multi-provider server answers a failed
    backend call with neither description nor metadata, and the
    single-provider server passes on an empty text of the backend. *)
Lemma C5_no_description :
  ((exists r, Multi.prepare Sample.failing Sample.hanoi = Next r) /\
   answer (Multi.handler Sample.failing Sample.hanoi) "description" = Undefined /\
   answer (Multi.handler Sample.failing Sample.hanoi) "metadata" = Undefined)
  /\ ((exists r, Single.prepare (Sample.answering EmptyString) Sample.hanoi = Next r) /\
      code (Single.handler (Sample.answering EmptyString) Sample.hanoi) = 200 /\
      answer (Single.handler (Sample.answering EmptyString) Sample.hanoi) "description"
      = Str EmptyString).
Proof.
  split; (split; [eexists; vm_compute; reflexivity|]);
    split; vm_compute; reflexivity.
Qed.




(** ** The page *)

Lemma outgoing_Next (E : Engine) (p : Client.Page) (mapImage : string) (body : Value) :
  Client.outgoing E p = Next (mapImage, body) ->
  Client.captureMapCanvas p = Some mapImage /\
  mapImage <> EmptyString /\
  Client.request E p mapImage = Next body.
Proof.
  unfold Client.outgoing. intros Ho.
  destruct (Client.captureMapCanvas p) as [url|]; cbn [bind] in Ho; [|discriminate].
  destruct (String.eqb url EmptyString) eqn:Hu; cbn [bind] in Ho; [discriminate|].
  destruct (Client.request E p url) as [b| |] eqn:Hr; cbn [bind] in Ho; try discriminate.
  injection Ho as <- <-. repeat split; auto.
  intros ->. discriminate.
Qed.

Lemma request_imageData (E : Engine) (p : Client.Page) (mapImage : string) (body : Value) :
  Client.request E p mapImage = Next body ->
  prop body "imageData" = Str mapImage.
Proof.
  unfold Client.request. intros Hr.
  destruct (ToNumber E (Client.pitch p)); cbn [bind] in Hr; try discriminate.
  destruct (ToNumber E (Client.bearing p)); cbn [bind] in Hr; try discriminate.
  destruct (ToNumber E (Client.zoom p)); cbn [bind] in Hr; try discriminate.
  injection Hr as <-. reflexivity.
Qed.

(** C7, as the code has it.  Every body the page hands to [fetch] has, as
    imageData, the text of [canvas.toDataURL('image/png')] itself: a data
    URL, prefix included, where the claim asks for bare base64. *)
Theorem C7_imageData_keeps_the_prefix (E : Engine) (p : Client.Page)
    (mapImage : string) (body : Value) :
  Client.outgoing E p = Next (mapImage, body) ->
  prop body "imageData" = Str mapImage /\
  starts_with "data:" mapImage = true /\
  (forall png_base64,
      Client.map_current p = Some (Client.Bitmap png_base64) ->
      prop body "imageData" = Str ("data:image/png;base64," ++ png_base64)).
Proof.
  intros Ho. destruct (outgoing_Next E p mapImage body Ho) as (Hc & _ & Hr).
  pose proof (request_imageData E p mapImage body Hr) as Hi.
  unfold Client.captureMapCanvas in Hc.
  destruct (Client.map_current p) as [[|png]|]; try discriminate;
    injection Hc as <-; repeat split; auto.
  - intros png' Hp. discriminate.
  - intros png' Hp. injection Hp as <-. assumption.
Qed.

(** The first capture of the sample page *)
Lemma C7_witness :
  exists body,
    Client.outgoing Sample.engine Sample.page
    = Next ("data:image/png;base64,iVBORw0KGgo=", body) /\
    prop body "imageData" = Str "data:image/png;base64,iVBORw0KGgo=".
Proof.
  eexists. split.
  - vm_compute. reflexivity.
  - apply (C7_imageData_keeps_the_prefix Sample.engine Sample.page).
    vm_compute. reflexivity.
Defined.

(** C8, amended.  After a round trip that succeeds (the response is [ok]
    and its body parses), the page shows the image it captured and sent,
    whatever the response holds: the response is logged and not read. *)
Theorem C8_page_shows_the_captured_image (E : Engine) (fetch : Value -> Client.Fetched)
    (p : Client.Page) (mapImage : string) (body data : Value) :
  Client.outgoing E p = Next (mapImage, body) ->
  fetch body = Client.Replied true (inr data) ->
  let shown := Client.generateImage E fetch p in
  Client.generatedImage shown = Some mapImage /\
  Client.error shown = None /\
  Client.loading shown = false /\
  Client.panel shown = Client.ShowsImage mapImage.
Proof.
  intros Ho Hf shown. subst shown.
  destruct (outgoing_Next E p mapImage body Ho) as (_ & Hne & _).
  unfold Client.generateImage, Client.attempt. rewrite Ho. cbn [bind]. rewrite Hf.
  repeat split. unfold Client.panel. cbn [Client.error Client.generatedImage Client.nonempty].
  destruct (String.eqb mapImage EmptyString) eqn:Hm; [|reflexivity].
  apply String.eqb_eq in Hm. contradiction.
Qed.

(** The sample page in front of the echo server *)
Lemma C8_witness :
  Client.panel
    (Client.generateImage Sample.engine
       (Client.served (Echo.handler (Sample.answering "A city."))) Sample.page)
  = Client.ShowsImage "data:image/png;base64,iVBORw0KGgo=".
Proof.
  assert (Ho : exists body,
             Client.outgoing Sample.engine Sample.page
             = Next ("data:image/png;base64,iVBORw0KGgo=", body) /\
             exists data,
               Client.served (Echo.handler (Sample.answering "A city.")) body
               = Client.Replied true (inr data)).
  { eexists. split; [vm_compute; reflexivity|]. eexists. vm_compute. reflexivity. }
  destruct Ho as (body & Ho & data & Hf).
  apply (C8_page_shows_the_captured_image Sample.engine _ Sample.page _ body data Ho Hf).
Defined.

(** C8 as stated fails: the image shown is the one the page captured, and
    the [image] of the response differs from it (the server has put the
    data-URL prefix before a value that already had one). *)
Lemma C8_shown_image_is_not_the_response_image :
  exists body data,
    Client.outgoing Sample.engine Sample.page
    = Next ("data:image/png;base64,iVBORw0KGgo=", body) /\
    Client.served (Echo.handler (Sample.answering "A city.")) body
    = Client.Replied true (inr data) /\
    prop data "image" = Str "data:image/png;base64,data:image/png;base64,iVBORw0KGgo=" /\
    Client.panel
      (Client.generateImage Sample.engine
         (Client.served (Echo.handler (Sample.answering "A city."))) Sample.page)
    = Client.ShowsImage "data:image/png;base64,iVBORw0KGgo=" /\
    Str "data:image/png;base64,iVBORw0KGgo=" <> prop data "image".
Proof.
  eexists. eexists. split; [vm_compute; reflexivity|].
  split; [vm_compute; reflexivity|].
  split; [vm_compute; reflexivity|].
  split; [vm_compute; reflexivity|].
  vm_compute. discriminate.
Qed.

(** ** Coordinates *)

(** C9, amended.  In the single-provider server, every request whose
    imageData is truthy and whose location.lat or location.lng is the
    number 0 is refused with 400 "Invalid location data".  (Without
    imageData the refusal is 400 "No image data provided".) *)
Theorem C9_zero_coordinate_is_refused (H : Host) (body : Value) (x : float) :
  truthy (prop body "imageData") = true ->
  prop (prop body "location") "lat" = Num x \/
  prop (prop body "location") "lng" = Num x ->
  PrimFloat.is_zero x = true ->
  Single.handler H body
  = status_json 400 [("error", Str "Invalid location data")].
Proof.
  intros Hi Hx Hz. apply Single_refuses_location; [assumption|].
  right. destruct Hx as [Hx|Hx]; [left|right]; rewrite Hx; cbn [truthy];
    rewrite Hz; reflexivity.
Qed.

(** A point on the equator *)
Lemma C9_witness :
  Single.handler (Sample.answering "A city.") Sample.equator
  = status_json 400 [("error", Str "Invalid location data")].
Proof.
  apply (C9_zero_coordinate_is_refused (Sample.answering "A city.") Sample.equator 0).
  - reflexivity.
  - left. reflexivity.
  - reflexivity.
Defined.

(** C9 as stated fails: with latitude 0 and no imageData the refusal names
    the image, not the location. *)
Lemma C9_missing_image_comes_first :
  prop (prop Sample.equator_without_image "location") "lat" = Num 0 /\
  Single.handler (Sample.answering "A city.") Sample.equator_without_image
  = status_json 400 [("error", Str "No image data provided")] /\
  answer (Single.handler (Sample.answering "A city.") Sample.equator_without_image) "error"
  <> Str "Invalid location data".
Proof.
  split; [reflexivity|]. split; [reflexivity|]. vm_compute. discriminate.
Qed.

(** C10.  In the echo server, every request that passes validation and
    whose location.lat or location.lng is not a number is answered from the
    [catch] branch, with status 500. *)
Theorem C10_echo_throws_on_a_coordinate_that_is_no_number (H : Host) (body : Value) :
  truthy (prop body "imageData") = true ->
  truthy (prop body "location") = true ->
  is_undefined (prop (prop body "location") "lat") = false ->
  is_undefined (prop (prop body "location") "lng") = false ->
  is_number (prop (prop body "location") "lat") = false \/
  is_number (prop (prop body "location") "lng") = false ->
  code (Echo.handler H body) = 500 /\
  exists e, Echo.handler H body = Echo.caught H e.
Proof.
  intros Hi Hl Hlat Hlng Hn.
  assert (Hc : exists e, Echo.handler H body = Echo.caught H e).
  { destruct (Echo.check H body) as [r|r'|e] eqn:Hk.
    - apply (Echo_checked_not_numbers H body r Hk Hn).
    - destruct (Echo_check_Respond H body r' Hk) as (_ & [Hb|[Hb|[Hb|Hb]]]); congruence.
    - rewrite (Echo_handler_thrown H body e Hk). eauto. }
  destruct Hc as [e He]. rewrite He. split; [reflexivity | eauto].
Qed.

(** Two words for coordinates *)
Lemma C10_witness :
  code (Echo.handler (Sample.answering "A city.") Sample.words) = 500.
Proof.
  apply (C10_echo_throws_on_a_coordinate_that_is_no_number
           (Sample.answering "A city.") Sample.words);
    try reflexivity.
  left. reflexivity.
Defined.

(** * Further properties *)

(** ** The page: attempts that fail *)

Lemma toDataURL_nonempty (canvas : Client.Canvas) :
  String.eqb (Client.toDataURL canvas) EmptyString = false.
Proof. destruct canvas; reflexivity. Qed.

Lemma attempt_not_ok (E : Engine) (fetch : Value -> Client.Fetched)
    (p : Client.Page) (url : string) (body : Value) (data : Error + Value) :
  Client.outgoing E p = Next (url, body) ->
  fetch body = Client.Replied false data ->
  Client.generateImage E fetch p
  = Client.mkPage (Client.map_current p) (Client.lng p) (Client.lat p)
      (Client.zoom p) (Client.pitch p) (Client.bearing p)
      false (Client.generatedImage p) (Some "API call failed").
Proof.
  intros Ho Hf. unfold Client.generateImage, Client.attempt.
  rewrite Ho. cbn [bind]. rewrite Hf. reflexivity.
Qed.

(** X1.  Without a map ([map.current] is null) an attempt makes no request:
    whatever [fetch] would do, the page ends with the error "Unable to
    capture the map", keeps the image it had and is no longer loading. *)
Theorem X1_no_map_no_request (E : Engine) (fetch : Value -> Client.Fetched)
    (p : Client.Page) :
  Client.map_current p = None ->
  let q := Client.generateImage E fetch p in
  Client.error q = Some "Unable to capture the map" /\
  Client.generatedImage q = Client.generatedImage p /\
  Client.loading q = false /\
  Client.panel q = Client.ShowsError "Unable to capture the map" /\
  forall fetch', Client.generateImage E fetch' p = q.
Proof.
  intros Hm q. subst q.
  unfold Client.generateImage, Client.attempt, Client.outgoing, Client.captureMapCanvas.
  rewrite Hm. cbn [bind]. repeat split.
Qed.

(** The page before the map script has loaded *)
Lemma X1_witness :
  Client.error
    (Client.generateImage Sample.engine
       (Client.served (Echo.handler (Sample.answering "A city."))) Client.initial)
  = Some "Unable to capture the map".
Proof.
  apply (X1_no_map_no_request Sample.engine
           (Client.served (Echo.handler (Sample.answering "A city.")))
           Client.initial eq_refl).
Defined.

(** X2.  When the server answers with a status outside 200..299, the page
    shows the fixed text "API call failed" and nothing of the server's own
    error; the image of an earlier attempt stays in place. *)
Theorem X2_refusal_is_shown_as_API_call_failed (E : Engine)
    (handler : Value -> Response) (p : Client.Page) (url : string) (body : Value) :
  Client.outgoing E p = Next (url, body) ->
  ((200 <=? code (handler body)) && (code (handler body) <=? 299))%nat = false ->
  let q := Client.generateImage E (Client.served handler) p in
  Client.error q = Some "API call failed" /\
  Client.generatedImage q = Client.generatedImage p /\
  Client.loading q = false /\
  Client.panel q = Client.ShowsError "API call failed".
Proof.
  intros Ho Hc q. subst q.
  rewrite (attempt_not_ok E (Client.served handler) p url body
             (inr (Client.wire (json (handler body)))) Ho).
  - repeat split.
  - unfold Client.served. rewrite Hc. reflexivity.
Qed.

(** The sample page in front of a single-provider server that refuses the
    equator: the page sends its own coordinates, so the refusal is played
    with a page whose latitude is 0. *)
Lemma X2_witness :
  Client.panel
    (Client.generateImage Sample.engine
       (Client.served (Single.handler (Sample.answering "A city.")))
       (Client.mkPage (Some (Client.Bitmap "iVBORw0KGgo="))
          (Num 105.8342) (Num 0) (Num 15) (Num 60) (Num 0) false None None))
  = Client.ShowsError "API call failed".
Proof.
  assert (Ho : exists body,
             Client.outgoing Sample.engine
               (Client.mkPage (Some (Client.Bitmap "iVBORw0KGgo="))
                  (Num 105.8342) (Num 0) (Num 15) (Num 60) (Num 0) false None None)
             = Next ("data:image/png;base64,iVBORw0KGgo=", body) /\
             ((200 <=? code (Single.handler (Sample.answering "A city.") body))
              && (code (Single.handler (Sample.answering "A city.") body) <=? 299))%nat
             = false).
  { eexists. split; [vm_compute; reflexivity|]. vm_compute. reflexivity. }
  destruct Ho as (body & Ho & Hc).
  apply (X2_refusal_is_shown_as_API_call_failed Sample.engine _ _ _ body Ho Hc).
Defined.

(** ** The page after the map has moved *)

Lemma Echo_not_a_number (H : Host) (body : Value) :
  truthy (prop body "imageData") = true ->
  truthy (prop body "location") = true ->
  is_undefined (prop (prop body "location") "lat") = false ->
  is_undefined (prop (prop body "location") "lng") = false ->
  is_number (prop (prop body "location") "lat") = false \/
  is_number (prop (prop body "location") "lng") = false ->
  code (Echo.handler H body) = 500.
Proof.
  intros Hi Hl Hlat Hlng Hn.
  destruct (Echo.check H body) as [r|r'|e] eqn:Hk.
  - destruct (Echo_checked_not_numbers H body r Hk Hn) as [e ->]. reflexivity.
  - destruct (Echo_check_Respond H body r' Hk) as (_ & [Hb|[Hb|[Hb|Hb]]]); congruence.
  - rewrite (Echo_handler_thrown H body e Hk). reflexivity.
Qed.

(** X3.  Once the map has moved, the cells [lat] and [lng] hold the text
    of [toFixed(4)], the page sends them as strings, and the echo server
    throws on them: every attempt against the echo server ends with
    "API call failed". *)
Theorem X3_after_a_move_the_echo_server_fails (E : Engine) (H : Host)
    (centerLng centerLat mapZoom mapPitch mapBearing : float)
    (p : Client.Page) (canvas : Client.Canvas) :
  Client.map_current p = Some canvas ->
  let moved := Client.moved E centerLng centerLat mapZoom mapPitch mapBearing p in
  let q := Client.generateImage E (Client.served (Echo.handler H)) moved in
  Client.panel q = Client.ShowsError "API call failed" /\
  Client.error q = Some "API call failed" /\
  Client.generatedImage q = Client.generatedImage p.
Proof.
  intros Hm moved q. subst q moved. unfold Client.moved.
  set (lngText := Numeral_text E 4 (toFixed 4 centerLng)).
  set (latText := Numeral_text E 4 (toFixed 4 centerLat)).
  set (zoomText := Numeral_text E 2 (toFixed 2 mapZoom)).
  set (pitchText := Numeral_text E 0 (toFixed 0 mapPitch)).
  set (bearingText := Numeral_text E 0 (toFixed 0 mapBearing)).
  clearbody lngText latText zoomText pitchText bearingText.
  set (moved := Client.mkPage _ _ _ _ _ _ _ _ _).
  assert (Ho : exists body,
             Client.outgoing E moved = Next (Client.toDataURL canvas, body) /\
             code (Echo.handler H body) = 500).
  { unfold Client.outgoing, Client.captureMapCanvas, moved.
    cbn [Client.map_current]. rewrite Hm. rewrite toDataURL_nonempty. cbn [bind].
    unfold Client.request.
    cbn [Client.pitch Client.bearing Client.zoom Client.lat Client.lng ToNumber bind].
    eexists. split; [reflexivity|].
    set (x := StringToNumber E pitchText).
    set (y := StringToNumber E bearingText).
    set (z := StringToNumber E zoomText).
    clearbody x y z.
    cbn [Client.wire is_undefined].
    apply Echo_not_a_number;
      cbn [prop lookup find fst snd String.eqb Ascii.eqb Bool.eqb truthy
           is_undefined is_number].
    - rewrite toDataURL_nonempty. reflexivity.
    - reflexivity.
    - reflexivity.
    - reflexivity.
    - left. reflexivity. }
  destruct Ho as (body & Ho & Hc).
  rewrite (attempt_not_ok E _ moved _ body
             (inr (Client.wire (json (Echo.handler H body)))) Ho).
  - repeat split.
  - unfold Client.served. rewrite Hc. reflexivity.
Qed.

(** The sample page after a move that leaves the camera where it was *)
Lemma X3_witness :
  Client.panel
    (Client.generateImage Sample.engine
       (Client.served (Echo.handler (Sample.answering "A city.")))
       (Client.moved Sample.engine 105.8342 21.0278 15 60 0 Sample.page))
  = Client.ShowsError "API call failed".
Proof.
  apply (X3_after_a_move_the_echo_server_fails Sample.engine
           (Sample.answering "A city.") 105.8342 21.0278 15 60 0 Sample.page
           (Client.Bitmap "iVBORw0KGgo=") eq_refl).
Defined.

(** ** The camera buttons *)

Lemma Math_min_85 (x : float) :
  PrimFloat.ltb 85 (Controls.Math_min 85 x) = false.
Proof.
  unfold Controls.Math_min.
  destruct (PrimFloat.is_nan 85 || PrimFloat.is_nan x); [reflexivity|].
  destruct (PrimFloat.ltb 85 x) eqn:Hab; [reflexivity|].
  destruct (PrimFloat.ltb x 85); [assumption|].
  change (PrimFloat.get_sign 85) with false. cbv iota. assumption.
Qed.

Lemma above_zero_not_below (y : float) :
  PrimFloat.ltb 0 y = true -> PrimFloat.ltb y 0 = false.
Proof.
  rewrite !FloatAxioms.ltb_spec.
  change (Prim2SF 0) with (S754_zero false).
  destruct (Prim2SF y) as [s|s| |s m e]; cbn; try discriminate; try reflexivity;
    destruct s; cbn; intros; try discriminate; reflexivity.
Qed.

Lemma Math_max_0 (y : float) :
  PrimFloat.ltb (Controls.Math_max 0 y) 0 = false.
Proof.
  unfold Controls.Math_max.
  destruct (PrimFloat.is_nan 0 || PrimFloat.is_nan y); [reflexivity|].
  destruct (PrimFloat.ltb 0 y) eqn:Hab; [apply above_zero_not_below; assumption|].
  destruct (PrimFloat.ltb y 0); reflexivity.
Qed.

(** X4.  The pitch buttons keep the pitch they ask for within bounds,
    whatever the pitch cell holds (a number, or the text left by a move):
    "pitch-up" never asks for more than 85 and "pitch-down" never for less
    than 0.  Without a map no button asks for anything. *)
Theorem X4_pitch_buttons_stay_within_bounds (E : Engine) (p : Client.Page) :
  (forall command,
      Controls.adjustCamera E p "pitch-up" = Next (Some command) ->
      exists x, command = Controls.SetPitch x /\ PrimFloat.ltb 85 x = false)
  /\ (forall command,
      Controls.adjustCamera E p "pitch-down" = Next (Some command) ->
      exists x, command = Controls.SetPitch x /\ PrimFloat.ltb x 0 = false)
  /\ (Client.map_current p = None ->
      forall type, Controls.adjustCamera E p type = Next None).
Proof.
  conjuncts.
  - intros command Ha. unfold Controls.adjustCamera in Ha.
    destruct (Client.map_current p); [|discriminate].
    cbn [String.eqb Ascii.eqb Bool.eqb] in Ha.
    destruct (Controls.plus E (Client.pitch p) (Num 10)) as [raised| |];
      cbn [bind] in Ha; try discriminate.
    destruct (ToNumber E raised) as [x| |]; cbn [bind] in Ha; try discriminate.
    injection Ha as <-. eexists. split; [reflexivity | apply Math_min_85].
  - intros command Ha. unfold Controls.adjustCamera in Ha.
    destruct (Client.map_current p); [|discriminate].
    cbn [String.eqb Ascii.eqb Bool.eqb] in Ha.
    destruct (Controls.minus E (Client.pitch p) (Num 10)) as [lowered| |];
      cbn [bind] in Ha; try discriminate.
    injection Ha as <-. eexists. split; [reflexivity | apply Math_max_0].
  - intros Hm type. unfold Controls.adjustCamera. rewrite Hm. reflexivity.
Qed.

(** The sample page at pitch 60 and at pitch 80 *)
Lemma X4_witness :
  (exists x, Controls.SetPitch 70 = Controls.SetPitch x /\ PrimFloat.ltb 85 x = false)
  /\ (exists x, Controls.SetPitch 85 = Controls.SetPitch x /\ PrimFloat.ltb 85 x = false).
Proof.
  split.
  - apply (proj1 (X4_pitch_buttons_stay_within_bounds Sample.engine Sample.page)).
    vm_compute. reflexivity.
  - apply (proj1 (X4_pitch_buttons_stay_within_bounds Sample.engine
                    (Client.mkPage (Some (Client.Bitmap "iVBORw0KGgo="))
                       (Num 105.8342) (Num 21.0278) (Num 15) (Num 80) (Num 0)
                       false None None))).
    vm_compute. reflexivity.
Defined.

(** ** The download button *)

Lemma generateImage_keeps_the_map (E : Engine) (fetch : Value -> Client.Fetched)
    (p : Client.Page) :
  Client.outgoing E (Client.generateImage E fetch p) = Client.outgoing E p.
Proof.
  unfold Client.generateImage. destruct (Client.attempt E fetch p); reflexivity.
Qed.

(** X5.  The download button hands out the image the page holds: nothing
    before the first attempt that succeeds, the captured image after it,
    named after the clock.  An attempt that the server refuses afterwards
    puts the error in the panel and leaves that download as it was. *)
Theorem X5_download_survives_a_refusal (E : Engine)
    (fetch fetch' : Value -> Client.Fetched) (p : Client.Page)
    (url : string) (body data : Value) (refusal : Error + Value) (now : float) :
  Client.outgoing E p = Next (url, body) ->
  fetch body = Client.Replied true (inr data) ->
  fetch' body = Client.Replied false refusal ->
  let first := Client.generateImage E fetch p in
  let second := Client.generateImage E fetch' first in
  let file :=
    Controls.mkDownload url ("map-render-" ++ Number_toString E now ++ ".png") in
  (Client.generatedImage p = None -> Controls.downloadImage E now p = None)
  /\ Controls.downloadImage E now first = Some file
  /\ Client.panel first = Client.ShowsImage url
  /\ Client.panel second = Client.ShowsError "API call failed"
  /\ Controls.downloadImage E now second = Some file.
Proof.
  intros Ho Hf Hf' first second file. subst file.
  assert (Hne : String.eqb url EmptyString = false).
  { destruct (outgoing_Next E p url body Ho) as (_ & Hne & _).
    destruct (String.eqb url EmptyString) eqn:Hu; [|reflexivity].
    apply String.eqb_eq in Hu. contradiction. }
  assert (H1 : first
               = Client.mkPage (Client.map_current p) (Client.lng p) (Client.lat p)
                   (Client.zoom p) (Client.pitch p) (Client.bearing p)
                   false (Some url) None).
  { subst first. unfold Client.generateImage, Client.attempt.
    rewrite Ho. cbn [bind]. rewrite Hf. reflexivity. }
  assert (H2 : second
               = Client.mkPage (Client.map_current p) (Client.lng p) (Client.lat p)
                   (Client.zoom p) (Client.pitch p) (Client.bearing p)
                   false (Some url) (Some "API call failed")).
  { subst second.
    rewrite (attempt_not_ok E fetch' first url body refusal);
      [rewrite H1; reflexivity | | assumption].
    subst first. rewrite generateImage_keeps_the_map. assumption. }
  rewrite H1, H2. clear H1 H2 first second. conjuncts.
  - intros Hn. unfold Controls.downloadImage. rewrite Hn. reflexivity.
  - unfold Controls.downloadImage. cbn [Client.generatedImage Client.nonempty].
    rewrite Hne. reflexivity.
  - unfold Client.panel. cbn [Client.error Client.generatedImage Client.nonempty].
    rewrite Hne. reflexivity.
  - reflexivity.
  - unfold Controls.downloadImage. cbn [Client.generatedImage Client.nonempty].
    rewrite Hne. reflexivity.
Qed.

(** The page in front of the echo server, then of a multi-provider server
    whose backend fails *)
Lemma X5_witness :
  Client.panel
    (Client.generateImage Sample.engine
       (Client.served (Multi.handler Sample.failing))
       (Client.generateImage Sample.engine
          (Client.served (Echo.handler (Sample.answering "A city."))) Sample.page))
  = Client.ShowsError "API call failed".
Proof.
  assert (Ho : exists body,
             Client.outgoing Sample.engine Sample.page
             = Next ("data:image/png;base64,iVBORw0KGgo=", body) /\
             (exists data,
                 Client.served (Echo.handler (Sample.answering "A city.")) body
                 = Client.Replied true (inr data)) /\
             (exists refusal,
                 Client.served (Multi.handler Sample.failing) body
                 = Client.Replied false refusal)).
  { eexists. split; [vm_compute; reflexivity|].
    split; eexists; vm_compute; reflexivity. }
  destruct Ho as (body & Ho & (data & Hf) & (refusal & Hf')).
  apply (X5_download_survives_a_refusal Sample.engine _ _ Sample.page _ body data
           refusal 0 Ho Hf Hf').
Defined.

(** ** What every answer of a server looks like *)

Lemma Echo_answer_cases (H : Host) (body : Value) :
  (exists r image description,
      Echo.handler H body = Echo.sent H r image description)
  \/ (exists e, Echo.handler H body = Echo.caught H e)
  \/ (exists text received,
      Echo.handler H body
      = status_json 400 [("error", Str text); ("received", received)]).
Proof.
  destruct (Echo.check H body) as [r|r'|e] eqn:Hk.
  - rewrite (Echo_handler_checked H body r Hk).
    destruct (Echo_respond_cases H r) as [(image & d & -> & _)|[e ->]];
      cbn [finish]; eauto 8.
  - rewrite (Echo_handler_responded H body r' Hk). right; right.
    unfold Echo.check, Echo.logged in Hk.
    destruct (is_nullish body) eqn:Hn.
    { destruct body; discriminate. }
    rewrite !destructure_ok in Hk by assumption. cbn [bind] in Hk.
    destruct (truthy (prop body "imageData")) eqn:Hi.
    2:{ cbn [negb bind] in Hk. injection Hk as <-. eauto. }
    destruct (truthy (prop body "location")) eqn:Hl.
    2:{ repeat run_step; try dismiss; eauto. }
    rewrite !Get_ok in Hk by (apply truthy_not_nullish; assumption).
    cbn [negb bind] in Hk.
    destruct (is_undefined (prop (prop body "location") "lat")) eqn:Hlat.
    { repeat run_step; try dismiss; eauto. }
    cbn [bind] in Hk.
    destruct (is_undefined (prop (prop body "location") "lng")) eqn:Hlng.
    { repeat run_step; try dismiss; eauto. }
    repeat run_step; try dismiss.
  - rewrite (Echo_handler_thrown H body e Hk). eauto.
Qed.

(** X6.  Each of the three [POST /api/generate] handlers answers with
    status 200, 400 or 500 and nothing else, and an answer that is not a
    200 carries an [error] text and neither [success] nor [image]. *)
Theorem X6_answers_are_200_400_or_500 (H : Host) (body : Value) :
  let plain_error (r : Response) :=
    (code r = 200 \/ code r = 400 \/ code r = 500) /\
    (code r = 200 \/
     (exists text, answer r "error" = Str text) /\
     answer r "success" = Undefined /\
     answer r "image" = Undefined) in
  plain_error (Echo.handler H body) /\
  plain_error (Single.handler H body) /\
  plain_error (Multi.handler H body).
Proof.
  intros plain_error.
  assert (Hok : forall r, code r = 200 -> plain_error r).
  { intros r Hr. split; auto. }
  conjuncts.
  - destruct (Echo_answer_cases H body)
      as [(r & i & d & ->)|[(e & ->)|(text & received & ->)]].
    + apply Hok. reflexivity.
    + split; [cbn; tauto|]. right. repeat split; cbn; eauto.
    + split; [cbn; tauto|]. right. repeat split; cbn; eauto.
  - destruct (Single_answer_cases H body)
      as [(r & i & t & ->)|[(r & i & e & ->)|[(e & ->)|[(-> & _)|
          [(-> & _)|(size & -> & _)]]]]].
    + apply Hok. reflexivity.
    + apply Hok. reflexivity.
    + split; [cbn; tauto|]. right. repeat split; cbn; eauto.
    + split; [cbn; tauto|]. right. repeat split; cbn; eauto.
    + split; [cbn; tauto|]. right. repeat split; cbn; eauto.
    + split; [cbn; tauto|]. right. repeat split; cbn; eauto.
  - destruct (Multi_answer_cases H body) as [(r & i & t & ->)|[(e & ->)|(-> & _)]].
    + apply Hok. reflexivity.
    + split; [cbn; tauto|]. right. repeat split; cbn; eauto.
    + split; [cbn; tauto|]. right. repeat split; cbn; eauto.
Qed.

(** X7.  A body without imageData (missing, empty, or otherwise falsy) is
    refused by all three servers with status 400 and the error "No image
    data provided", whatever its location holds, and the answer has no
    image, description or metadata.  The echo server adds the keys it
    received. *)
Theorem X7_missing_image_is_refused_first (H : Host) (body : Value) :
  is_nullish body = false ->
  truthy (prop body "imageData") = false ->
  Echo.handler H body
  = status_json 400
      [("error", Str "No image data provided");
       ("received", Arr (Object_keys body))]
  /\ Single.handler H body = status_json 400 [("error", Str "No image data provided")]
  /\ Multi.handler H body = status_json 400 [("error", Str "No image data provided")]
  /\ (forall handler,
        In handler [Echo.handler H; Single.handler H; Multi.handler H] ->
        code (handler body) = 400 /\
        answer (handler body) "image" = Undefined /\
        answer (handler body) "description" = Undefined /\
        answer (handler body) "metadata" = Undefined).
Proof.
  intros Hn Hi.
  assert (He : Echo.handler H body
               = status_json 400
                   [("error", Str "No image data provided");
                    ("received", Arr (Object_keys body))]).
  { unfold Echo.handler, Echo.check, Echo.logged.
    rewrite !destructure_ok by assumption. cbn [bind]. rewrite Hi. reflexivity. }
  pose proof (Single_refuses_image H body Hn Hi) as Hs.
  pose proof (Multi_refuses_image H body Hn Hi) as Hm.
  conjuncts; try assumption.
  intros handler [<-|[<-|[<-|[]]]]; rewrite ?He, ?Hs, ?Hm; repeat split.
Qed.

(** A body that holds only a camera *)
Lemma X7_witness :
  Echo.handler (Sample.answering "A city.") Sample.equator_without_image
  = status_json 400
      [("error", Str "No image data provided");
       ("received", Arr [Str "pitch"; Str "bearing"; Str "zoom"; Str "location"])].
Proof.
  apply (X7_missing_image_is_refused_first (Sample.answering "A city.")
           Sample.equator_without_image eq_refl eq_refl).
Defined.

(** ** The size gate *)

Lemma Single_refuses_size (H : Host) (body : Value) (s : string) :
  prop body "imageData" = Str s ->
  truthy (Str s) = true ->
  truthy (prop body "location") = true ->
  truthy (prop (prop body "location") "lat") = true ->
  truthy (prop (prop body "location") "lng") = true ->
  (20978511 <= strlen s)%N ->
  Single.handler H body
  = Single.too_large H (Fixed false (hundredths_of_MB (strlen s))).
Proof.
  intros Hs Ht Hl Hlat Hlng Hlen.
  assert (Hn : is_nullish body = false).
  { destruct body; try reflexivity; discriminate. }
  unfold Single.handler, Single.prepare.
  rewrite Hn, !destructure_ok by assumption. cbn [bind]. rewrite Hs, Ht. cbn [negb bind].
  rewrite Hl. cbn [negb bind].
  rewrite !Get_ok by (apply truthy_not_nullish; assumption). cbn [bind].
  rewrite Hlat, Hlng. cbn [negb bind sizeInMB exceeds_15 andb].
  apply gate_threshold in Hlen. rewrite Hlen. reflexivity.
Qed.

Lemma hundredths_monotone (len len' : N) :
  (len <= len')%N -> (hundredths_of_MB len <= hundredths_of_MB len')%N.
Proof.
  intros Hle. unfold hundredths_of_MB. apply N.Div0.div_le_mono. lia.
Qed.

(** X8.  The size gate is monotone.  Of two requests with string images
    that both pass validation in the single-provider server, the longer one
    is never shown a smaller size, and if the shorter one is refused for
    its size then so is the longer one. *)
Theorem X8_size_gate_is_monotone (H : Host) (body body' : Value) (s s' : string) :
  prop body "imageData" = Str s ->
  prop body' "imageData" = Str s' ->
  truthy (Str s) = true ->
  truthy (prop body "location") = true ->
  truthy (prop (prop body "location") "lat") = true ->
  truthy (prop (prop body "location") "lng") = true ->
  truthy (prop body' "location") = true ->
  truthy (prop (prop body' "location") "lat") = true ->
  truthy (prop (prop body' "location") "lng") = true ->
  (strlen s <= strlen s')%N ->
  (hundredths_of_MB (strlen s) <= hundredths_of_MB (strlen s'))%N /\
  (code (Single.handler H body) = 400 ->
   Single.handler H body'
   = status_json 400
       [("error", Str "Image too large. Please zoom out or reduce resolution.");
        ("size", Str (fixed_text 2 (hundredths_of_MB (strlen s')) ++ " MB"));
        ("limit", Str "15 MB")]).
Proof.
  intros Hs Hs' Ht Hl Hlat Hlng Hl' Hlat' Hlng' Hle. split.
  - apply hundredths_monotone. assumption.
  - intros Hc.
    assert (Hlen : (20978511 <= strlen s)%N).
    { destruct (Single_answer_cases H body)
        as [(r & i & t & Hr)|[(r & i & e & Hr)|[(e & Hr)|[(Hr & Hi)|
            [(Hr & Hi & Hbad)|(size & Hr & _ & _ & _ & _ & Hsize & Hx)]]]]];
        try (rewrite Hr in Hc; discriminate).
      - rewrite Hs, Ht in Hi. discriminate.
      - destruct Hbad as [Hb|[Hb|Hb]]; congruence.
      - rewrite Hs in Hsize. cbn [sizeInMB] in Hsize. injection Hsize as <-.
        cbn [exceeds_15 negb andb] in Hx. apply gate_threshold in Hx. assumption. }
    assert (Ht' : truthy (Str s') = true).
    { destruct s'; [|reflexivity]. cbn [strlen] in Hle. lia. }
    rewrite (Single_refuses_size H body' s' Hs' Ht' Hl' Hlat' Hlng'); [reflexivity | lia].
Qed.

(** The large request and a larger one, of fifty million characters *)
Lemma X8_witness :
  Single.handler (Sample.answering "A city.")
    (Sample.body (Str (N.iter 50000000 (String "A") EmptyString))
       (Num 60) (Num 0) (Num 15)
       (Sample.coordinates (Num 21.0278) (Num 105.8342)))
  = status_json 400
      [("error", Str "Image too large. Please zoom out or reduce resolution.");
       ("size", Str "35.76 MB");
       ("limit", Str "15 MB")].
Proof.
  assert (Ht : truthy (Str Large.payload) = true).
  { destruct Large_nonempty as [rest ->]. reflexivity. }
  assert (Hle : (strlen Large.payload
                 <= strlen (N.iter 50000000 (String "A") EmptyString))%N).
  { rewrite Large_length, strlen_iter. cbn [strlen]. unfold Large.length. lia. }
  assert (Hlen : (20978511 <= strlen Large.payload)%N).
  { rewrite Large_length. unfold Large.length. lia. }
  destruct (X8_size_gate_is_monotone (Sample.answering "A city.") Sample.large
              (Sample.body (Str (N.iter 50000000 (String "A") EmptyString))
                 (Num 60) (Num 0) (Num 15)
                 (Sample.coordinates (Num 21.0278) (Num 105.8342)))
              Large.payload (N.iter 50000000 (String "A") EmptyString)
              eq_refl eq_refl Ht eq_refl eq_refl eq_refl eq_refl eq_refl eq_refl Hle)
    as [_ Hgate].
  rewrite Hgate.
  - rewrite strlen_iter. reflexivity.
  - rewrite (Single_refuses_size (Sample.answering "A city.") Sample.large
               Large.payload eq_refl Ht eq_refl eq_refl eq_refl Hlen).
    reflexivity.
Defined.

(** ** Refusals and the backend *)

(** X9.  A request that the single-provider or the multi-provider server
    answers with status 400 costs no backend call: the answer is the same
    whatever the backend would have done. *)
Theorem X9_a_refusal_makes_no_backend_call (H : Host)
    (g : ModelParams -> list Part -> Reply) (body : Value) :
  let H' := mkHost (engine H) (toISOString H) (getHours H) (random_pick H) g in
  (code (Single.handler H body) = 400 -> Single.handler H' body = Single.handler H body)
  /\ (code (Multi.handler H body) = 400 -> Multi.handler H' body = Multi.handler H body).
Proof.
  intros H'. split.
  - intros Hc.
    assert (Hp : Single.prepare H' body = Single.prepare H body) by reflexivity.
    unfold Single.handler in *. rewrite Hp.
    destruct (Single.prepare H body) as [r|r'|e]; cbn [bind finish] in *;
      try reflexivity.
    destruct (Single_delegate_cases H r)
      as [(image & _ & [(text & _ & Hd)|(e & _ & Hd)])|[e Hd]];
      rewrite Hd in Hc; discriminate.
  - intros Hc.
    assert (Hp : Multi.prepare H' body = Multi.prepare H body) by reflexivity.
    unfold Multi.handler in *. rewrite Hp.
    destruct (Multi.prepare H body) as [r|r'|e]; cbn [bind finish] in *;
      try reflexivity.
    destruct (Multi_delegate_cases H r) as [(image & text & _ & _ & Hd)|[e Hd]];
      rewrite Hd in Hc; discriminate.
Qed.

(** A request without a latitude, with a backend that answers and with one
    that fails *)
Lemma X9_witness :
  Single.handler Sample.failing Sample.no_latitude
  = Single.handler (Sample.answering "A city.") Sample.no_latitude.
Proof.
  apply (proj1 (X9_a_refusal_makes_no_backend_call (Sample.answering "A city.")
                  (generateContent Sample.failing) Sample.no_latitude)).
  vm_compute. reflexivity.
Defined.

(** ** The page in front of a server with a backend *)

(** X10.  What the page captures reaches the backend as it is.  For a map
    with pixels the page sends the data URL of the canvas; when the
    single-provider or the multi-provider server answers 200, the backend
    was called with that data URL as the inline data of type image/png,
    and the answer's image is the data-URL prefix in front of it, so it
    carries the prefix twice. *)
Theorem X10_the_backend_receives_the_data_url (H : Host) (p : Client.Page)
    (png url : string) (body : Value) :
  Client.map_current p = Some (Client.Bitmap png) ->
  Client.outgoing (engine H) p = Next (url, body) ->
  url = "data:image/png;base64," ++ png /\
  (code (Single.handler H body) = 200 ->
   answer (Single.handler H body) "image"
   = Str ("data:image/png;base64," ++ "data:image/png;base64," ++ png) /\
   exists r, Single.prepare H body = Next r /\
     Single.call H r
     = generateContent H Single.modelParams
         [InlineData (Str url) "image/png"; TextPart (Single.prompt r)]) /\
  (code (Multi.handler H body) = 200 ->
   answer (Multi.handler H body) "image"
   = Str ("data:image/png;base64," ++ "data:image/png;base64," ++ png) /\
   exists r, Multi.prepare H body = Next r /\
     Multi.call H r
     = generateContent H Multi.modelParams
         [TextPart (Multi.prompt r); InlineData (Str url) "image/png"]).
Proof.
  intros Hm Ho. destruct (outgoing_Next (engine H) p url body Ho) as (Hc & _ & Hr).
  pose proof (request_imageData (engine H) p url body Hr) as Hi.
  unfold Client.captureMapCanvas in Hc. rewrite Hm in Hc. injection Hc as Hu.
  cbn [Client.toDataURL] in Hu. subst url. split; [reflexivity|]. split.
  - intros H200.
    destruct (Single_200 H body H200) as (r & image & Hp & Hs & Hcases).
    rewrite Hi in Hs. cbn in Hs. injection Hs as <-.
    destruct (Single_prepare_Next H body r Hp) as (Himg & _). split.
    + destruct Hcases as [(text & _ & ->)|(e & _ & ->)]; reflexivity.
    + exists r. split; [assumption|]. unfold Single.call. rewrite Himg, Hi. reflexivity.
  - intros H200.
    destruct (Multi_200 H body H200) as (r & image & text & Hp & _ & Hs & ->).
    rewrite Hi in Hs. cbn in Hs. injection Hs as <-.
    destruct (Multi_prepare_Next H body r Hp) as (Himg & _). split.
    + reflexivity.
    + exists r. split; [assumption|]. unfold Multi.call. rewrite Himg, Hi. reflexivity.
Qed.

(** The sample page in front of the single-provider server *)
Lemma X10_witness :
  exists body,
    Client.outgoing Sample.engine Sample.page
    = Next ("data:image/png;base64,iVBORw0KGgo=", body) /\
    answer (Single.handler (Sample.answering "A city.") body) "image"
    = Str "data:image/png;base64,data:image/png;base64,iVBORw0KGgo=".
Proof.
  assert (Ho : exists body,
             Client.outgoing Sample.engine Sample.page
             = Next ("data:image/png;base64,iVBORw0KGgo=", body) /\
             code (Single.handler (Sample.answering "A city.") body) = 200).
  { eexists. split; [vm_compute; reflexivity|]. vm_compute. reflexivity. }
  destruct Ho as (body & Ho & H200). exists body. split; [exact Ho|].
  destruct (X10_the_backend_receives_the_data_url (Sample.answering "A city.")
              Sample.page "iVBORw0KGgo=" _ body eq_refl Ho) as (_ & Hs & _).
  destruct (Hs H200) as [Himage _]. exact Himage.
Defined.

(** ** The probe of the backend *)

(** X11.  [GET /test-gemini] answers 200 or 500, its [success] flag says
    which, and it is 200 exactly when the backend returns a text for the
    fixed question, which is then the [response] of the answer.  (The
    generation endpoint of the same server answers a failed backend call
    with 200 and [success: false].) *)
Theorem X11_the_probe_reports_the_backend (H : Host) :
  let reply :=
    generateContent H (mkModelParams "gemini-1.5-flash" [])
      [TextPart "Say hello in one word"] in
  (code (Probe.test_gemini H) = 200 \/ code (Probe.test_gemini H) = 500) /\
  answer (Probe.test_gemini H) "success"
  = Bool (Nat.eqb (code (Probe.test_gemini H)) 200) /\
  (code (Probe.test_gemini H) = 200 <-> exists text, reply = Answered text) /\
  (forall text, reply = Answered text ->
     answer (Probe.test_gemini H) "response" = Str text) /\
  (forall e, reply = Rejected e ->
     answer (Probe.test_gemini H) "error" = Str (message e) /\
     answer (Probe.test_gemini H) "details" = errorDetails_value e).
Proof.
  intros reply. unfold Probe.test_gemini. fold reply.
  destruct reply as [e|[|]|e|text]; cbn; conjuncts; auto;
    try (split; [discriminate | intros [text' Ht]; discriminate]);
    try (intros ? [=]; subst; auto; fail).
  split; eauto.
Qed.

(** ** The optional providers *)

Lemma Get_cases (E : Engine) (v : Value) (key : string) :
  Get E v key = Next (prop v key) \/ exists e, Get E v key = Throw e.
Proof. destruct v; simpl; eauto. Qed.

Lemma loaded_quiet {A : Type} (service : Error + A) : quiet (Providers.loaded service).
Proof. destruct service; simpl; auto with quiet. Qed.

Lemma settled_quiet (outcome : Error + Value) : quiet (Providers.settled outcome).
Proof. destruct outcome; simpl; auto with quiet. Qed.

Lemma first_quiet (E : Engine) (v : Value) : quiet (Providers.first E v).
Proof. destruct v as [| | | |[|c s]| |]; simpl; auto with quiet. Qed.

Lemma dalle_prompt_quiet (E : Engine) (lat lng pitch bearing : Value) :
  quiet (Providers.dalle_prompt E lat lng pitch bearing).
Proof.
  unfold Providers.dalle_prompt. apply template_quiet.
  repeat constructor; auto with quiet.
Qed.

#[export] Hint Resolve loaded_quiet settled_quiet first_quiet dalle_prompt_quiet : quiet.

Lemma generate_dalle_cases (S : Providers.Services) (E : Engine) (body : Value) :
  (exists prompt url,
      Providers.dalle_prompt E
        (prop (prop body "location") "lat") (prop (prop body "location") "lng")
        (prop body "pitch") (prop body "bearing") = Next prompt /\
      Providers.generate_dalle S E body
      = status_json 200
          [("success", Bool true); ("image", url); ("description", Str prompt)])
  \/ (exists e, Providers.generate_dalle S E body = Providers.caught e).
Proof.
  unfold Providers.generate_dalle.
  destruct (is_nullish body) eqn:Hn.
  { right. destruct body; try discriminate; simpl; eauto. }
  rewrite !destructure_ok by assumption. cbn [bind].
  destruct (Providers.openai S) as [e|generate]; cbn [Providers.loaded bind finish]; [eauto|].
  destruct (Get_cases E (prop body "location") "lat") as [->|[e ->]];
    cbn [bind finish]; [|eauto].
  destruct (Get_cases E (prop body "location") "lng") as [->|[e ->]];
    cbn [bind finish]; [|eauto].
  destruct (Providers.dalle_prompt E _ _ _ _) as [prompt|r|e] eqn:Hp;
    cbn [bind finish]; [|dismiss|eauto].
  destruct (generate _) as [e|response]; cbn [Providers.settled bind finish]; [eauto|].
  destruct (Get E response "data") as [data|r|e] eqn:Hd;
    cbn [bind finish]; [|dismiss|eauto].
  destruct (Providers.first E data) as [image|r|e] eqn:Hf;
    cbn [bind finish]; [|dismiss|eauto].
  destruct (Get E image "url") as [url|r|e] eqn:Hu;
    cbn [bind finish]; [|dismiss|eauto].
  left. eauto.
Qed.

(** X12.  [POST /api/generate-dalle] has no validation step.  For a parsed
    body it answers 200 or 500, never 400; a 200 carries the prompt it
    built as description; the request's imageData and zoom play no part in
    the answer; and when the openai package cannot be loaded every request
    gets that error as a 500. *)
Theorem X12_dalle_endpoint_ignores_the_image (S : Providers.Services) (E : Engine)
    (body : Value) :
  is_nullish body = false ->
  let r := Providers.generate_dalle S E body in
  (code r = 200 \/ code r = 500) /\
  (code r = 200 ->
   answer r "success" = Bool true /\
   exists prompt,
     Providers.dalle_prompt E
       (prop (prop body "location") "lat") (prop (prop body "location") "lng")
       (prop body "pitch") (prop body "bearing") = Next prompt /\
     answer r "description" = Str prompt) /\
  (forall body',
     is_nullish body' = false ->
     prop body' "pitch" = prop body "pitch" ->
     prop body' "bearing" = prop body "bearing" ->
     prop body' "location" = prop body "location" ->
     Providers.generate_dalle S E body' = r) /\
  (forall e, Providers.openai S = inl e ->
     r = status_json 500 [("error", Str (message e))]).
Proof.
  intros Hn r. subst r. conjuncts.
  - destruct (generate_dalle_cases S E body) as [(prompt & url & _ & ->)|[e ->]];
      cbn; auto.
  - intros H200.
    destruct (generate_dalle_cases S E body) as [(prompt & url & Hp & Hr)|[e Hr]];
      rewrite Hr in *; [|discriminate].
    split; [reflexivity|]. exists prompt. split; [assumption | reflexivity].
  - intros body' Hn' Hpitch Hbearing Hlocation. unfold Providers.generate_dalle.
    rewrite !destructure_ok by assumption. cbn [bind].
    rewrite Hpitch, Hbearing, Hlocation. reflexivity.
  - intros e He. unfold Providers.generate_dalle.
    rewrite !destructure_ok by assumption. cbn [bind]. rewrite He. reflexivity.
Qed.

(** The same view with and without an image *)
Lemma X12_witness :
  Providers.generate_dalle Fixture.answering Sample.engine Sample.equator_without_image
  = Providers.generate_dalle Fixture.answering Sample.engine Sample.equator.
Proof.
  destruct (X12_dalle_endpoint_ignores_the_image Fixture.answering Sample.engine
              Sample.equator eq_refl) as (_ & _ & Hsame & _).
  apply Hsame; reflexivity.
Defined.

Lemma generate_sd_cases (S : Providers.Services) (E : Engine) (body : Value) :
  (exists image,
      Providers.generate_sd S E body
      = status_json 200
          [("success", Bool true); ("image", image);
           ("description", Str Providers.sd_prompt)])
  \/ (exists e, Providers.generate_sd S E body = Providers.caught e).
Proof.
  unfold Providers.generate_sd.
  destruct (is_nullish body) eqn:Hn.
  { right. destruct body; try discriminate; simpl; eauto. }
  rewrite !destructure_ok by assumption. cbn [bind].
  destruct (Providers.replicate S) as [e|run]; cbn [Providers.loaded bind finish]; [eauto|].
  destruct (run _ _) as [e|output]; cbn [Providers.settled bind finish]; [eauto|].
  destruct (Providers.first E output) as [image|r|e] eqn:Hf;
    cbn [bind finish]; [|dismiss|eauto].
  left. eauto.
Qed.

(** X13.  [POST /api/generate-sd] reads nothing of the request: any two
    parsed bodies get the same answer.  The answer is a 200 or a 500, and
    a 200 carries the fixed prompt as description. *)
Theorem X13_sd_endpoint_ignores_the_request (S : Providers.Services) (E : Engine)
    (body body' : Value) :
  is_nullish body = false ->
  is_nullish body' = false ->
  let r := Providers.generate_sd S E body in
  Providers.generate_sd S E body' = r /\
  (code r = 200 \/ code r = 500) /\
  (code r = 200 ->
   answer r "success" = Bool true /\
   answer r "description" = Str Providers.sd_prompt).
Proof.
  intros Hn Hn' r. subst r. conjuncts.
  - unfold Providers.generate_sd.
    rewrite !destructure_ok by assumption. reflexivity.
  - destruct (generate_sd_cases S E body) as [(image & ->)|[e ->]]; cbn; auto.
  - intros H200.
    destruct (generate_sd_cases S E body) as [(image & Hr)|[e Hr]];
      rewrite Hr in *; [|discriminate].
    split; reflexivity.
Qed.

(** An empty object and the example request *)
Lemma X13_witness :
  Providers.generate_sd Fixture.answering Sample.engine (Obj [])
  = Providers.generate_sd Fixture.answering Sample.engine Sample.hanoi.
Proof.
  apply (X13_sd_endpoint_ignores_the_request Fixture.answering Sample.engine
           Sample.hanoi (Obj []) eq_refl eq_refl).
Defined.

(** ** The three servers side by side *)

(** X14.  A request that the single-provider server answers with 200 is
    refused by neither of the other servers, and whichever of them also
    answers 200 returns the same image, the same camera and the same
    location. *)
Theorem X14_servers_agree_on_what_they_return (H : Host) (body : Value) :
  code (Single.handler H body) = 200 ->
  let same (r : Response) :=
    code r <> 400 /\
    (code r = 200 ->
     answer r "image" = answer (Single.handler H body) "image" /\
     camera_of r = camera_of (Single.handler H body) /\
     prop (answer r "metadata") "location"
     = prop (answer (Single.handler H body) "metadata") "location") in
  same (Echo.handler H body) /\ same (Multi.handler H body).
Proof.
  intros H200 same. subst same. cbv beta.
  destruct (Single_200 H body H200) as (r & image & Hp & Hs & Hcases).
  destruct (Single_prepare_Next H body r Hp)
    as (_ & Hpitch & Hbearing & Hzoom & Hloc & Hi & Hl & Hlat & Hlng & _).
  assert (Hsingle : answer (Single.handler H body) "image" = Str (data_url image) /\
                    camera_of (Single.handler H body)
                    = Obj [("pitch", prop body "pitch");
                           ("bearing", prop body "bearing");
                           ("zoom", prop body "zoom")] /\
                    prop (answer (Single.handler H body) "metadata") "location"
                    = prop body "location").
  { destruct Hcases as [(text & _ & ->)|(e & _ & ->)];
      cbn; rewrite Hpitch, Hbearing, Hzoom, Hloc; repeat split. }
  destruct Hsingle as (-> & -> & ->). conjuncts.
  - intros H400. destruct (Echo_400_only H body H400) as [Hb|[Hb|[Hb|Hb]]];
      try congruence; apply is_undefined_true in Hb; rewrite Hb in *; discriminate.
  - intros He.
    destruct (Echo_200 H body He) as (r' & image' & d & Hk & Hs' & ->).
    destruct (Echo_check_Next H body r' Hk) as (_ & Hp' & Hb' & Hz' & Hl' & _).
    assert (image' = image) as -> by congruence.
    cbn. rewrite Hp', Hb', Hz', Hl'. repeat split.
  - intros H400.
    destruct (Multi_answer_cases H body) as [(r' & i & t & Hr)|[(e & Hr)|(_ & Hb)]];
      try (rewrite Hr in H400; discriminate). congruence.
  - intros Hm.
    destruct (Multi_200 H body Hm) as (r' & image' & text & Hk & _ & Hs' & ->).
    destruct (Multi_prepare_Next H body r' Hk) as (_ & Hp' & Hb' & Hz' & Hl' & _).
    assert (image' = image) as -> by congruence.
    cbn. rewrite Hp', Hb', Hz', Hl'. repeat split.
Qed.

(** The example request in front of the echo server and the
    single-provider server *)
Lemma X14_witness :
  answer (Echo.handler (Sample.answering "A city.") Sample.hanoi) "image"
  = answer (Single.handler (Sample.answering "A city.") Sample.hanoi) "image".
Proof.
  destruct (X14_servers_agree_on_what_they_return (Sample.answering "A city.")
              Sample.hanoi eq_refl) as [[_ Hecho] _].
  destruct (Hecho eq_refl) as [Himage _]. exact Himage.
Defined.

(** ** The camera buttons after a move *)

(** X15.  The move handler stores the camera as the texts of [toFixed], and
    the buttons compute with what is stored.  Before any move, with a
    number as bearing, rotate-right asks for the bearing plus 30.  After a
    move, rotate-right asks for the stored text with "30" appended,
    pitch-up for the least of 85 and the number spelled by the stored text
    with "10" appended, while rotate-left, a subtraction, still takes 30
    from the number the text spells. *)
Theorem X15_after_a_move_the_buttons_append_text (E : Engine)
    (centerLng centerLat mapZoom mapPitch mapBearing : float)
    (p : Client.Page) (canvas : Client.Canvas) :
  Client.map_current p = Some canvas ->
  let q := Client.moved E centerLng centerLat mapZoom mapPitch mapBearing p in
  let pitchText := Numeral_text E 0 (toFixed 0 mapPitch) in
  let bearingText := Numeral_text E 0 (toFixed 0 mapBearing) in
  Controls.adjustCamera E q "rotate-right"
  = Next (Some (Controls.SetBearing (Str (bearingText ++ Number_toString E 30)))) /\
  Controls.adjustCamera E q "rotate-left"
  = Next (Some (Controls.SetBearing (Num (StringToNumber E bearingText - 30)))) /\
  Controls.adjustCamera E q "pitch-up"
  = Next (Some (Controls.SetPitch
                  (Controls.Math_min 85
                     (StringToNumber E (pitchText ++ Number_toString E 10))))) /\
  (forall x, Client.bearing p = Num x ->
     Controls.adjustCamera E p "rotate-right"
     = Next (Some (Controls.SetBearing (Num (x + 30))))).
Proof.
  intros Hm q pitchText bearingText. subst q.
  unfold Controls.adjustCamera.
  cbn [Client.moved Client.map_current Client.pitch Client.bearing].
  rewrite Hm. fold pitchText bearingText.
  clearbody pitchText bearingText. conjuncts; try reflexivity.
  intros x ->. reflexivity.
Qed.

(** The sample page after a move to bearing 45 and pitch 60 *)
Lemma X15_witness :
  Controls.adjustCamera Sample.engine
    (Client.moved Sample.engine 105.8342 21.0278 15 60 45 Sample.page) "rotate-right"
  = Next (Some (Controls.SetBearing (Str "4530"))).
Proof.
  destruct (X15_after_a_move_the_buttons_append_text Sample.engine
              105.8342 21.0278 15 60 45 Sample.page (Client.Bitmap "iVBORw0KGgo=")
              eq_refl) as [Hright _].
  rewrite Hright. vm_compute. reflexivity.
Defined.
